(** * ONNX importer: conversion of the quantized convolution operator

    Shallow embedding of
    [src/ngraph/frontend/onnx_import/op/quant_conv.cpp]
    (namespace [ngraph::onnx_import::op::set_1]): the helper
    [make_ng_quant_conv] and the operator converter [quant_conv].

    Graph nodes built by the converter are terms of [NgNode]; the nodes the
    import layer hands in are [TensorRef] leaves.  Exceptions and the one
    undefined operation of the source (an integer remainder by zero) are
    outcomes of the [result] type, threaded with a bind.

    The node constructors of the graph library ([op::Slice], [op::Concat],
    the [builder::quantization] functions) and the [convpool] accessors are
    defined outside this file; here the former build terms and the latter
    are fields of the operator node, and neither fails. *)

From Stdlib Require Import ZArith Lia String.
From stdpp Require Import base list.

Local Open Scope Z_scope.

(** ** Machine integers *)

(** [std::size_t] is a 64-bit unsigned integer, [int] a 32-bit signed one and
    [int64_t] a 64-bit signed one; all three are carried by [Z]. *)
Definition SIZE_WIDTH : Z := 2 ^ 64.
Definition INT_MAX : Z := 2 ^ 31 - 1.
Definition INT_MIN : Z := - 2 ^ 31.

Definition is_size_t (z : Z) : Prop := 0 <= z < SIZE_WIDTH.
Definition is_int (z : Z) : Prop := INT_MIN <= z <= INT_MAX.
Definition is_int64 (z : Z) : Prop := - 2 ^ 63 <= z < 2 ^ 63.

(** Conversion of a signed integer to [std::size_t] (usual arithmetic
    conversions in a mixed comparison, division or remainder). *)
Definition to_size_t (z : Z) : Z := z mod SIZE_WIDTH.

(** Conversion of an [int64_t] argument to an [int] parameter. *)
Definition to_int (z : Z) : Z := (z + 2 ^ 31) mod 2 ^ 32 - 2 ^ 31.

Definition size_t_add (a b : Z) : Z := (a + b) mod SIZE_WIDTH.
Definition size_t_mul (a b : Z) : Z := (a * b) mod SIZE_WIDTH.

(** ** Data model *)

Module element.

(** [ngraph::element::Type], as far as the converter looks at it. *)
Inductive Type_t : Set :=
| boolean | f32 | f64 | i8 | i16 | i32 | i64 | u8 | u16 | u32 | u64.

(** [operator==] on element types. *)
Definition eqb (a b : Type_t) : bool :=
  match a, b with
  | boolean, boolean | f32, f32 | f64, f64
  | i8, i8 | i16, i16 | i32, i32 | i64, i64
  | u8, u8 | u16, u16 | u32, u32 | u64, u64 => true
  | _, _ => false
  end.

End element.

(** [Shape], [Coordinate] and [Strides] are vectors of [std::size_t],
    [CoordinateDiff] a vector of [std::ptrdiff_t]. *)
Abbreviation Shape := (list Z) (only parsing).
Abbreviation Coordinate := (list Z) (only parsing).
Abbreviation Strides := (list Z) (only parsing).
Abbreviation CoordinateDiff := (list Z) (only parsing).

(** A node that already exists in the graph when the converter runs: what
    the converter can ask of it is its output shape, its element type and
    whether it is the importer's null node. *)
Record TensorRef : Type := mkTensorRef {
  get_name : string;
  get_element_type : element.Type_t;
  get_shape : Shape;
  is_null : bool
}.

#[local] Set Warnings "-register-all".

(** Nodes of the graph under construction.  The two overloads of
    [builder::quantization::QuantizedLinearConvolution] are two
    constructors: the one with scales only, and [_zp], the one that also
    takes the three zero points. *)
Inductive NgNode : Type :=
| Input (t : TensorRef)
| Slice (arg : NgNode) (lower_bounds upper_bounds : Coordinate)
| Concat (args : list NgNode) (concatenation_axis : Z)
| QuantizedLinearConvolution
    (data filters : NgNode)
    (strides filter_dilations : Strides)
    (padding_below padding_above : CoordinateDiff)
    (data_dilations : Strides)
    (data_scale filter_scale output_scale : NgNode)
| QuantizedLinearConvolution_zp
    (data filters : NgNode)
    (strides filter_dilations : Strides)
    (padding_below padding_above : CoordinateDiff)
    (data_dilations : Strides)
    (data_scale data_zero_point
     filter_scale filter_zero_point
     output_scale output_zero_point : NgNode)
| QuantizedLinearConvolutionBias
    (data filters bias : NgNode)
    (strides filter_dilations : Strides)
    (padding_below padding_above : CoordinateDiff)
    (data_dilations : Strides)
    (data_scale filter_scale output_scale : NgNode).

Abbreviation NodeVector := (list NgNode) (only parsing).

Record OpScale : Type := mkOpScale {
  op_data_scale : TensorRef;
  op_filter_scale : TensorRef;
  op_output_scale : TensorRef
}.

(** The ONNX operator node as the converter sees it.  The geometry fields
    are the values that [convpool::get_strides], [get_dilations],
    [get_kernel_shape] and [get_pads] return for the node; those accessors
    live outside this file and are taken as given. *)
Record Node : Type := mkNode {
  get_description : string;
  get_ng_inputs : list TensorRef;
  attribute_group : option Z;
  convpool_strides : Strides;
  convpool_dilations : Strides;
  convpool_kernel_shape : Shape;
  convpool_pads : CoordinateDiff * CoordinateDiff
}.

(** [node.get_attribute_value<int64_t>("group", dflt)] *)
Definition get_attribute_value_group (node : Node) (dflt : Z) : Z :=
  default dflt (attribute_group node).

(** ** Outcomes *)

(** What is streamed into an assertion's message. *)
Inductive item : Type :=
| Text (s : string)
| Int64 (z : Z).

Inductive exn : Type :=
| InvalidArgument (who : string) (msg : list item)
| NotSupported (msg : string)
| out_of_range.

Inductive result (A : Type) : Type :=
| Ok (a : A)
| Throw (e : exn)
| Undefined.

Arguments Ok {A} a.
Arguments Throw {A} e.
Arguments Undefined {A}.

Definition bind {A B : Type} (m : result A) (k : A -> result B) : result B :=
  match m with
  | Ok a => k a
  | Throw e => Throw e
  | Undefined => Undefined
  end.

Notation "x <- m ;; k" := (bind m (fun x => k))
  (at level 100, m at level 99, right associativity).
Notation "m ;;; k" := (bind m (fun _ => k))
  (at level 100, right associativity).

(** [std::vector::at]: bounds-checked access. *)
Definition at_ {A : Type} (v : list A) (i : nat) : result A :=
  match v !! i with
  | Some x => Ok x
  | None => Throw out_of_range
  end.

(** [a % b] on [std::size_t]: undefined when the divisor is zero. *)
Definition size_t_rem (a b : Z) : result Z :=
  if b =? 0 then Undefined else Ok (a mod b).

(** Modelled from the spec: the macro [ASSERT_VALID_ARGUMENT] of
    [onnx_import/exceptions.hpp] is not part of this file.  A failed
    condition signals a validation error for the node; the error carries
    what the call site streams into it. *)
Definition ASSERT_VALID_ARGUMENT (node : Node) (cond : bool) (msg : list item)
  : result unit :=
  if cond then Ok tt else Throw (InvalidArgument (get_description node) msg).

(** ** make_ng_quant_conv *)

Local Open Scope string_scope.

Definition bias_groups_message : string :=
  "Groups != 1 not supported for Quantized Convolution with bias.".

Definition group_message : string :=
  "incorrect value of 'group' attribute: ".

Definition data_multiple_message : string :=
  "provided group attribute value must be a multiple of data channels count.".

Definition filters_multiple_message : string :=
  "provided group attribute value must be a multiple of filter channels count.".

Local Close Scope string_scope.

(** The variables the group loop updates. *)
Record loop_state : Type := mkLoopState {
  data_lower_bounds : Coordinate;
  data_upper_bounds : Coordinate;
  filters_lower_bounds : Coordinate;
  filters_upper_bounds : Coordinate;
  convolution_nodes : NodeVector
}.

Section GroupLoop.

Variables (data filters : TensorRef).
Variables (strides filter_dilations : Strides).
Variables (padding_below padding_above : CoordinateDiff).
Variable (data_dilations : Strides).
Variable (op_scale : OpScale).
Variable (bias : option TensorRef).
Variables (data_group_size filters_group_size : Z).

(** One pass through the body of the [for] loop.  The writes at index 1 and
    0 are in range whenever the loop is reached: the [at(1)] and [at(0)]
    before it have already succeeded. *)
Definition group_body (group : Z) (st : loop_state) : result loop_state :=
  let dl := <[1%nat := size_t_mul group data_group_size]>
              (data_lower_bounds st) in
  let du := <[1%nat := size_t_mul (size_t_add group 1) data_group_size]>
              (data_upper_bounds st) in
  let sliced_data := Slice (Input data) dl du in
  let fl := <[0%nat := size_t_mul group filters_group_size]>
              (filters_lower_bounds st) in
  let fu := <[0%nat := size_t_mul (size_t_add group 1) filters_group_size]>
              (filters_upper_bounds st) in
  let sliced_filters := Slice (Input filters) fl fu in
  match bias with
  | Some _ => Throw (NotSupported bias_groups_message)
  | None =>
      Ok (mkLoopState dl du fl fu
            (convolution_nodes st ++
             [QuantizedLinearConvolution
                sliced_data sliced_filters
                strides filter_dilations padding_below padding_above
                data_dilations
                (Input (op_data_scale op_scale))
                (Input (op_filter_scale op_scale))
                (Input (op_output_scale op_scale))]))
  end.

(** [for (std::size_t group{0}; group < groups; ++group)]: [trips] is the
    number of passes still to run, [group] the loop counter. *)
Fixpoint group_loop (trips : nat) (group : Z) (st : loop_state)
  : result loop_state :=
  match trips with
  | O => Ok st
  | S trips' =>
      st' <- group_body group st ;;
      group_loop trips' (size_t_add group 1) st'
  end.

End GroupLoop.

(** [groups] is the [int] parameter of the source; above 1 its conversion
    to [std::size_t] is the same number, so both divisions have a nonzero
    divisor.  [bias] is [None] for the default argument [nullptr]. *)
Definition make_ng_quant_conv
    (data filters : TensorRef)
    (strides filter_dilations : Strides)
    (padding_below padding_above : CoordinateDiff)
    (data_dilations : Strides)
    (groups : Z)
    (op_scale : OpScale)
    (bias : option TensorRef) : result NgNode :=
  if 1 <? groups then
    n_data_channels <- at_ (get_shape data) 1 ;;
    n_filters_channels <- at_ (get_shape filters) 0 ;;
    let data_group_size := n_data_channels / to_size_t groups in
    let filters_group_size := n_filters_channels / to_size_t groups in
    let st0 :=
      mkLoopState (replicate (length (get_shape data)) 0)
                  (get_shape data)
                  (replicate (length (get_shape filters)) 0)
                  (get_shape filters)
                  [] in
    st <- group_loop data filters strides filter_dilations
            padding_below padding_above data_dilations op_scale bias
            data_group_size filters_group_size
            (Z.to_nat (to_size_t groups)) 0 st0 ;;
    let concatenation_axis := 1 in
    Ok (Concat (convolution_nodes st) concatenation_axis)
  else
    match bias with
    | Some b =>
        Ok (QuantizedLinearConvolutionBias
              (Input data) (Input filters) (Input b)
              strides filter_dilations padding_below padding_above
              data_dilations
              (Input (op_data_scale op_scale))
              (Input (op_filter_scale op_scale))
              (Input (op_output_scale op_scale)))
    | None =>
        Ok (QuantizedLinearConvolution
              (Input data) (Input filters)
              strides filter_dilations padding_below padding_above
              data_dilations
              (Input (op_data_scale op_scale))
              (Input (op_filter_scale op_scale))
              (Input (op_output_scale op_scale)))
    end.

(** ** quant_conv *)

(** The condition of the first assertion, with the short circuit of [&&]:
    the shapes are only consulted when [groups >= 0]. *)
Definition group_in_bounds (groups : Z) (data filters : TensorRef)
  : result bool :=
  if 0 <=? groups then
    d1 <- at_ (get_shape data) 1 ;;
    if to_size_t groups <=? d1 then
      f0 <- at_ (get_shape filters) 0 ;;
      Ok (to_size_t groups <=? f0)
    else Ok false
  else Ok false.

(** [inputs.size() == 9 && !inputs.at(8)->is_null()] *)
Definition bias_given (inputs : list TensorRef) : result bool :=
  if (length inputs =? 9)%nat then
    b <- at_ inputs 8 ;;
    Ok (negb (is_null b))
  else Ok false.

Definition quant_conv (node : Node) : result NodeVector :=
  let inputs := get_ng_inputs node in
  data <- at_ inputs 0 ;;
  filters <- at_ inputs 3 ;;
  let groups := get_attribute_value_group node 1 in
  data_scale <- at_ inputs 1 ;;
  filters_scale <- at_ inputs 4 ;;
  output_scale <- at_ inputs 6 ;;
  in_bounds <- group_in_bounds groups data filters ;;
  ASSERT_VALID_ARGUMENT node in_bounds [Text group_message; Int64 groups] ;;;
  n_data_channels <- at_ (get_shape data) 1 ;;
  n_filters_channels <- at_ (get_shape filters) 0 ;;
  r_data <- size_t_rem n_data_channels (to_size_t groups) ;;
  ASSERT_VALID_ARGUMENT node (r_data =? 0) [Text data_multiple_message] ;;;
  r_filters <- size_t_rem n_filters_channels (to_size_t groups) ;;
  ASSERT_VALID_ARGUMENT node (r_filters =? 0)
    [Text filters_multiple_message] ;;;
  let strides := convpool_strides node in
  let filter_dilations := convpool_dilations node in
  let data_dilations :=
    replicate (length (convpool_kernel_shape node)) 1 in
  let paddings := convpool_pads node in
  let padding_below := fst paddings in
  let padding_above := snd paddings in
  has_bias <- bias_given inputs ;;
  conv_node <-
    (if has_bias then
       bias <- at_ inputs 8 ;;
       make_ng_quant_conv data filters strides filter_dilations
         padding_below padding_above data_dilations (to_int groups)
         (mkOpScale data_scale filters_scale output_scale)
         (Some bias)
     else
       if element.eqb (get_element_type filters) element.u8 && (groups =? 1)
       then
         data_zero_point <- at_ inputs 2 ;;
         filter_zero_point <- at_ inputs 5 ;;
         output_zero_point <- at_ inputs 7 ;;
         Ok (QuantizedLinearConvolution_zp
               (Input data) (Input filters)
               strides filter_dilations padding_below padding_above
               data_dilations
               (Input data_scale) (Input data_zero_point)
               (Input filters_scale) (Input filter_zero_point)
               (Input output_scale) (Input output_zero_point))
       else
         make_ng_quant_conv data filters strides filter_dilations
           padding_below padding_above data_dilations (to_int groups)
           (mkOpScale data_scale filters_scale output_scale)
           None) ;;
  Ok [conv_node].

(** ** Observations on the emitted graph *)

(** The primitive calls behind an emitted node: the arguments of a
    concatenation, or the node itself. *)
Definition primitive_calls (n : NgNode) : list NgNode :=
  match n with
  | Concat args _ => args
  | _ => [n]
  end.

Definition is_primitive (n : NgNode) : bool :=
  match n with
  | QuantizedLinearConvolution _ _ _ _ _ _ _ _ _ _
  | QuantizedLinearConvolution_zp _ _ _ _ _ _ _ _ _ _ _ _ _
  | QuantizedLinearConvolutionBias _ _ _ _ _ _ _ _ _ _ _ => true
  | _ => false
  end.

Definition is_bias_fused (n : NgNode) : bool :=
  match n with
  | QuantizedLinearConvolutionBias _ _ _ _ _ _ _ _ _ _ _ => true
  | _ => false
  end.

(** The scale arguments of a primitive call. *)
Definition scales_of (n : NgNode) : option (NgNode * NgNode * NgNode) :=
  match n with
  | QuantizedLinearConvolution _ _ _ _ _ _ _ ds fs os
  | QuantizedLinearConvolution_zp _ _ _ _ _ _ _ ds _ fs _ os _
  | QuantizedLinearConvolutionBias _ _ _ _ _ _ _ _ ds fs os =>
      Some (ds, fs, os)
  | _ => None
  end.

(** The data-dilation argument of a primitive call. *)
Definition data_dilations_of (n : NgNode) : option Strides :=
  match n with
  | QuantizedLinearConvolution _ _ _ _ _ _ dd _ _ _
  | QuantizedLinearConvolution_zp _ _ _ _ _ _ dd _ _ _ _ _ _
  | QuantizedLinearConvolutionBias _ _ _ _ _ _ _ dd _ _ _ => Some dd
  | _ => None
  end.

(** The data and filter operands of a primitive call. *)
Definition operands_of (n : NgNode) : option (NgNode * NgNode) :=
  match n with
  | QuantizedLinearConvolution d f _ _ _ _ _ _ _ _
  | QuantizedLinearConvolution_zp d f _ _ _ _ _ _ _ _ _ _ _
  | QuantizedLinearConvolutionBias d f _ _ _ _ _ _ _ _ _ => Some (d, f)
  | _ => None
  end.

(** The half-open range a slice keeps along [axis]. *)
Definition slice_range (axis : nat) (n : NgNode) : option (Z * Z) :=
  match n with
  | Slice _ lower upper =>
      match lower !! axis, upper !! axis with
      | Some lo, Some hi => Some (lo, hi)
      | _, _ => None
      end
  | _ => None
  end.

(** Modelled from the spec: shape inference of the graph-construction
    library is not part of this file.  Along an axis an existing node has
    the extent its shape gives and a slice the width of its range; a
    quantized convolution has as many output channels as its filter operand
    has along axis 0; a concatenation along axis 1 has the sum of its
    arguments' channels. *)
Definition extent (axis : nat) (n : NgNode) : option Z :=
  match n with
  | Input t => get_shape t !! axis
  | Slice _ _ _ =>
      match slice_range axis n with
      | Some (lo, hi) => Some (hi - lo)
      | None => None
      end
  | _ => None
  end.

(** Modelled from the spec: the output channels of a quantized convolution
    call are the extent of its filter operand along axis 0 (section 4.3). *)
Definition conv_output_channels (n : NgNode) : option Z :=
  match operands_of n with
  | Some (_, f) => extent 0 f
  | None => None
  end.

(** Modelled from the spec: the channels a list of calls has in total. *)
Fixpoint sum_channels (args : list NgNode) : option Z :=
  match args with
  | [] => Some 0
  | a :: rest =>
      match conv_output_channels a, sum_channels rest with
      | Some c, Some s => Some (c + s)
      | _, _ => None
      end
  end.

(** Modelled from the spec: the channel count of an emitted node; a
    concatenation along axis 1 adds up the channels of its arguments. *)
Definition output_channels (n : NgNode) : option Z :=
  match n with
  | Concat args 1 => sum_channels args
  | _ => conv_output_channels n
  end.

(** ** The partition the spec describes *)

(** Range [i] of [g] along an axis of extent [size]:
    [[i*size/g, (i+1)*size/g)]. *)
Definition group_range (size g i : Z) : Z * Z :=
  (i * size / g, (i + 1) * size / g).

Definition group_ranges (size g : Z) : list (Z * Z) :=
  group_range size g <$> seqZ 0 g.

Definition range_size (r : Z * Z) : Z := snd r - fst r.

Definition in_range (c : Z) (r : Z * Z) : Prop := fst r <= c < snd r.

Fixpoint total_size (rs : list (Z * Z)) : Z :=
  match rs with
  | [] => 0
  | r :: rest => range_size r + total_size rest
  end.

(** The ranges are pairwise disjoint and cover [[0, size)] exactly: every
    position below [size] lies in one range and no other, and no range
    holds a position outside. *)
Definition partitions (rs : list (Z * Z)) (size : Z) : Prop :=
  (forall c, 0 <= c < size ->
     exists i r, rs !! i = Some r /\ in_range c r /\
       forall j r', rs !! j = Some r' -> in_range c r' -> j = i) /\
  (forall i r c, rs !! i = Some r -> in_range c r -> 0 <= c < size).

(** The slice of [t] that keeps [range] along [axis] and everything along
    the other axes. *)
Definition slice_along (axis : nat) (t : TensorRef) (range : Z * Z) : NgNode :=
  Slice (Input t)
        (<[axis := fst range]> (replicate (length (get_shape t)) 0))
        (<[axis := snd range]> (get_shape t)).

(** The per-group call the spec describes for group [i] of [g], on data
    with [dc] channels and filters with [fc] output channels. *)
Definition spec_group_node
    (data filters : TensorRef)
    (strides filter_dilations : Strides)
    (padding_below padding_above : CoordinateDiff)
    (data_dilations : Strides) (op_scale : OpScale)
    (dc fc g i : Z) : NgNode :=
  QuantizedLinearConvolution
    (slice_along 1 data (group_range dc g i))
    (slice_along 0 filters (group_range fc g i))
    strides filter_dilations padding_below padding_above data_dilations
    (Input (op_data_scale op_scale))
    (Input (op_filter_scale op_scale))
    (Input (op_output_scale op_scale)).

(** ** The dispatch leaves *)

Inductive leaf : Set :=
| RejectedLeaf        (* bias with g > 1: NotSupported *)
| DecompositionLeaf   (* per-group calls and one concatenation *)
| FastPathLeaf        (* one call with scales and zero points *)
| BiasFusedLeaf       (* one bias-fused call *)
| PlainLeaf.          (* one call with scales only *)

(** The leaf an outcome of [quant_conv] comes from, read off the outcome. *)
Definition executed_leaf (r : result NodeVector) : option leaf :=
  match r with
  | Throw (NotSupported _) => Some RejectedLeaf
  | Ok [Concat _ _] => Some DecompositionLeaf
  | Ok [QuantizedLinearConvolution_zp _ _ _ _ _ _ _ _ _ _ _ _ _] =>
      Some FastPathLeaf
  | Ok [QuantizedLinearConvolutionBias _ _ _ _ _ _ _ _ _ _ _] =>
      Some BiasFusedLeaf
  | Ok [QuantizedLinearConvolution _ _ _ _ _ _ _ _ _ _] => Some PlainLeaf
  | _ => None
  end.

(** The decision tree of the spec (section 4.4), read literally: for
    [g == 1] the fast path is tested before the bias. *)
Definition spec_dispatch (g : Z) (bias_present fast_precision : bool) : leaf :=
  if 1 <? g then
    if bias_present then RejectedLeaf else DecompositionLeaf
  else if fast_precision then FastPathLeaf
  else if bias_present then BiasFusedLeaf
  else PlainLeaf.

(** The decision the code takes: the bias is tested first. *)
Definition code_dispatch (g : Z) (bias_present fast_precision : bool) : leaf :=
  if bias_present then
    if 1 <? g then RejectedLeaf else BiasFusedLeaf
  else if fast_precision && (g =? 1) then FastPathLeaf
  else if 1 <? g then DecompositionLeaf
  else PlainLeaf.

(** Whether the inputs after the eighth amount to a bias: there is exactly
    one, and it is not the null node. *)
Definition bias_present (rest : list TensorRef) : bool :=
  match rest with
  | [b] => negb (is_null b)
  | _ => false
  end.

(** A message carries a value when the value was streamed into it. *)
Definition carries (msg : list item) (v : Z) : Prop := In (Int64 v) msg.

(** The operator with its input list replaced. *)
Definition with_inputs (node : Node) (inputs : list TensorRef) : Node :=
  mkNode (get_description node) inputs (attribute_group node)
         (convpool_strides node) (convpool_dilations node)
         (convpool_kernel_shape node) (convpool_pads node).

(** The channel range a call keeps of its data operand (axis 1) and of its
    filter operand (axis 0). *)
Definition data_channel_range (n : NgNode) : option (Z * Z) :=
  match operands_of n with
  | Some (d, _) => slice_range 1 d
  | None => None
  end.

Definition filter_channel_range (n : NgNode) : option (Z * Z) :=
  match operands_of n with
  | Some (_, f) => slice_range 0 f
  | None => None
  end.

(** ** Definitions that serve the proofs *)

(** The values the loop counter takes. *)
Fixpoint counters (trips : nat) (group : Z) : list Z :=
  match trips with
  | O => []
  | S trips' => group :: counters trips' (size_t_add group 1)
  end.

(** The call the loop emits for the counter value [group], from the bound
    vectors [dl], [du], [fl], [fu] it finds: the node that [group_body]
    appends. *)
Definition group_node
    (data filters : TensorRef)
    (strides filter_dilations : Strides)
    (padding_below padding_above : CoordinateDiff)
    (data_dilations : Strides) (op_scale : OpScale)
    (data_group_size filters_group_size : Z)
    (dl du fl fu : Coordinate) (group : Z) : NgNode :=
  QuantizedLinearConvolution
    (Slice (Input data)
       (<[1%nat := size_t_mul group data_group_size]> dl)
       (<[1%nat := size_t_mul (size_t_add group 1) data_group_size]> du))
    (Slice (Input filters)
       (<[0%nat := size_t_mul group filters_group_size]> fl)
       (<[0%nat := size_t_mul (size_t_add group 1) filters_group_size]> fu))
    strides filter_dilations padding_below padding_above data_dilations
    (Input (op_data_scale op_scale))
    (Input (op_filter_scale op_scale))
    (Input (op_output_scale op_scale)).

(** A call of the group loop, whatever the bounds it started from. *)
Definition is_group_call
    (data filters : TensorRef)
    (strides filter_dilations : Strides)
    (padding_below padding_above : CoordinateDiff)
    (data_dilations : Strides) (op_scale : OpScale) (c : NgNode) : Prop :=
  exists dgs fgs dl du fl fu k,
    c = group_node data filters strides filter_dilations padding_below
          padding_above data_dilations op_scale dgs fgs dl du fl fu k.

(** What [quant_conv] does once the three assertions have passed. *)
Definition dispatch (node : Node)
    (data filters data_scale filters_scale output_scale : TensorRef)
    (groups : Z) : result NodeVector :=
  let inputs := get_ng_inputs node in
  let strides := convpool_strides node in
  let filter_dilations := convpool_dilations node in
  let data_dilations :=
    replicate (length (convpool_kernel_shape node)) 1 in
  let padding_below := fst (convpool_pads node) in
  let padding_above := snd (convpool_pads node) in
  has_bias <- bias_given inputs ;;
  conv_node <-
    (if has_bias then
       bias <- at_ inputs 8 ;;
       make_ng_quant_conv data filters strides filter_dilations
         padding_below padding_above data_dilations (to_int groups)
         (mkOpScale data_scale filters_scale output_scale)
         (Some bias)
     else
       if element.eqb (get_element_type filters) element.u8 && (groups =? 1)
       then
         data_zero_point <- at_ inputs 2 ;;
         filter_zero_point <- at_ inputs 5 ;;
         output_zero_point <- at_ inputs 7 ;;
         Ok (QuantizedLinearConvolution_zp
               (Input data) (Input filters)
               strides filter_dilations padding_below padding_above
               data_dilations
               (Input data_scale) (Input data_zero_point)
               (Input filters_scale) (Input filter_zero_point)
               (Input output_scale) (Input output_zero_point))
       else
         make_ng_quant_conv data filters strides filter_dilations
           padding_below padding_above data_dilations (to_int groups)
           (mkOpScale data_scale filters_scale output_scale)
           None) ;;
  Ok [conv_node].

(** ** Sample operators *)

Local Open Scope string_scope.

(** A [u8] batch of one image with 8 channels of 5 by 5. *)
Definition sample_data : TensorRef :=
  mkTensorRef "X" element.u8 [1; 8; 5; 5] false.

(** Eight filters of 3 by 3 over [in_channels] channels each. *)
Definition sample_filters (precision : element.Type_t) (in_channels : Z)
  : TensorRef :=
  mkTensorRef "W" precision [8; in_channels; 3; 3] false.

Definition sample_scale (name : string) : TensorRef :=
  mkTensorRef name element.f32 [] false.

Definition sample_zero_point (name : string) : TensorRef :=
  mkTensorRef name element.u8 [] false.

Definition sample_bias : TensorRef :=
  mkTensorRef "B" element.i32 [8] false.

(** The importer's null node, standing for an omitted optional input. *)
Definition null_node : TensorRef :=
  mkTensorRef "" element.f32 [] true.

Definition sample_inputs (w : TensorRef) (rest : list TensorRef)
  : list TensorRef :=
  sample_data :: sample_scale "x_scale" :: sample_zero_point "x_zero_point" ::
  w :: sample_scale "w_scale" :: sample_zero_point "w_zero_point" ::
  sample_scale "y_scale" :: sample_zero_point "y_zero_point" :: rest.

Definition sample_node (w : TensorRef) (rest : list TensorRef)
    (group : option Z) : Node :=
  mkNode "QLinearConv" (sample_inputs w rest) group
         [1; 1] [1; 1] [3; 3] ([0; 0], [0; 0]).

Local Close Scope string_scope.

(** The node list of a successful outcome. *)
Definition returned (r : result (list NgNode)) : list NgNode :=
  match r with
  | Ok nodes => nodes
  | _ => []
  end.

(** ** Further observations and samples *)

(** The strides, filter dilations, padding below and padding above of a
    primitive call. *)
Definition geometry_of (n : NgNode)
  : option (Strides * Strides * CoordinateDiff * CoordinateDiff) :=
  match n with
  | QuantizedLinearConvolution _ _ s fd pb pa _ _ _ _
  | QuantizedLinearConvolution_zp _ _ s fd pb pa _ _ _ _ _ _ _
  | QuantizedLinearConvolutionBias _ _ _ s fd pb pa _ _ _ _ =>
      Some (s, fd, pb, pa)
  | _ => None
  end.

(** Range [i] when the group size is the rounded-down quotient [size / g],
    which is how [make_ng_quant_conv] computes it. *)
Definition floor_range (size g i : Z) : Z * Z :=
  (i * (size / g), (i + 1) * (size / g)).

Definition floor_ranges (size g : Z) : list (Z * Z) :=
  floor_range size g <$> seqZ 0 g.

(** The call for group [i] of [g] when the slices have the rounded-down
    width, on data with [dc] channels and filters with [fc] output
    channels. *)
Definition floor_group_node
    (data filters : TensorRef)
    (strides filter_dilations : Strides)
    (padding_below padding_above : CoordinateDiff)
    (data_dilations : Strides) (op_scale : OpScale)
    (dc fc g i : Z) : NgNode :=
  QuantizedLinearConvolution
    (slice_along 1 data (floor_range dc g i))
    (slice_along 0 filters (floor_range fc g i))
    strides filter_dilations padding_below padding_above data_dilations
    (Input (op_data_scale op_scale))
    (Input (op_filter_scale op_scale))
    (Input (op_output_scale op_scale)).

Local Open Scope string_scope.

(** Data with [channels] channels of one pixel, and as many one-pixel
    filters over a single channel. *)
Definition sample_wide_data (channels : Z) : TensorRef :=
  mkTensorRef "X" element.u8 [1; channels; 1; 1] false.

Definition sample_wide_filters (channels : Z) : TensorRef :=
  mkTensorRef "W" element.u8 [channels; 1; 1; 1] false.

(** Data whose shape has no channel axis. *)
Definition sample_flat_data : TensorRef :=
  mkTensorRef "X" element.u8 [8] false.

(** An operator over [data] and [filters] with the usual scales and zero
    points, then [rest]. *)
Definition sample_node_over (data filters : TensorRef)
    (rest : list TensorRef) (group : option Z) : Node :=
  mkNode "QLinearConv"
         (data :: sample_scale "x_scale" :: sample_zero_point "x_zero_point" ::
          filters :: sample_scale "w_scale" ::
          sample_zero_point "w_zero_point" ::
          sample_scale "y_scale" :: rest)
         group [1; 1] [1; 1] [3; 3] ([0; 0], [0; 0]).

Local Close Scope string_scope.

(** * Properties *)

(** ** Machine arithmetic without wrap-around *)

Lemma to_size_t_small (z : Z) : is_size_t z -> to_size_t z = z.
Proof. unfold is_size_t, to_size_t. intros H. now apply Z.mod_small. Qed.

Lemma to_int_small (z : Z) : is_int z -> to_int z = z.
Proof.
  unfold is_int, to_int, INT_MIN, INT_MAX. intros H.
  rewrite Z.mod_small; lia.
Qed.

Lemma is_int_is_size_t (z : Z) : 0 <= z -> is_int z -> is_size_t z.
Proof. unfold is_int, is_size_t, INT_MAX, SIZE_WIDTH. lia. Qed.

Lemma size_t_add_small (a b : Z) :
  is_size_t (a + b) -> size_t_add a b = a + b.
Proof. unfold is_size_t, size_t_add. intros H. now apply Z.mod_small. Qed.

Lemma size_t_mul_small (a b : Z) :
  is_size_t (a * b) -> size_t_mul a b = a * b.
Proof. unfold is_size_t, size_t_mul. intros H. now apply Z.mod_small. Qed.

(** A multiple of the group size stays below the channel count. *)
Lemma group_bound (size g k : Z) :
  0 < g -> 0 <= size -> 0 <= k <= g -> 0 <= k * (size / g) <= size.
Proof.
  intros Hg Hs Hk.
  assert (0 <= size / g) by (apply Z.div_pos; lia).
  assert (g * (size / g) <= size) by (apply Z.mul_div_le; lia).
  nia.
Qed.

(** With [g] dividing [size], the bound the code computes is the bound the
    spec writes. *)
Lemma group_bound_exact (size g k : Z) :
  0 < g -> size mod g = 0 -> k * (size / g) = k * size / g.
Proof.
  intros Hg Hm.
  assert (Hs : size = g * (size / g)).
  { pose proof (Z.div_mod size g ltac:(lia)). lia. }
  rewrite Hs at 2.
  replace (k * (g * (size / g))) with (k * (size / g) * g) by ring.
  rewrite Z.div_mul; lia.
Qed.

(** ** The group loop *)

Lemma length_counters (trips : nat) (group : Z) :
  length (counters trips group) = trips.
Proof.
  revert group. induction trips as [|n IH]; intros group; simpl; auto.
Qed.

Lemma counters_seqZ (trips : nat) (group : Z) :
  0 <= group -> group + Z.of_nat trips < SIZE_WIDTH ->
  counters trips group = seqZ group (Z.of_nat trips).
Proof.
  revert group. induction trips as [|n IH]; intros group H0 H1.
  - reflexivity.
  - cbn [counters]. rewrite seqZ_cons by lia.
    rewrite size_t_add_small by (unfold is_size_t; lia).
    rewrite IH by lia. f_equal. f_equal; lia.
Qed.

Section GroupLoopFacts.

Variables (data filters : TensorRef).
Variables (strides filter_dilations : Strides).
Variables (padding_below padding_above : CoordinateDiff).
Variable (data_dilations : Strides).
Variable (op_scale : OpScale).
Variables (data_group_size filters_group_size : Z).

(** Overwriting an entry that the previous pass wrote leaves no trace of the
    previous pass. *)
Lemma group_node_overwrite (dl du fl fu : Coordinate) (a b c d group : Z) :
  group_node data filters strides filter_dilations padding_below
    padding_above data_dilations op_scale data_group_size filters_group_size
    (<[1%nat := a]> dl) (<[1%nat := b]> du)
    (<[0%nat := c]> fl) (<[0%nat := d]> fu) group
  = group_node data filters strides filter_dilations padding_below
      padding_above data_dilations op_scale data_group_size
      filters_group_size dl du fl fu group.
Proof.
  unfold group_node. now rewrite !list_insert_insert_eq.
Qed.

(** Without a bias the loop never fails, and appends one call per counter
    value. *)
Lemma group_loop_no_bias (trips : nat) :
  forall (group : Z) (st : loop_state),
  exists st',
    group_loop data filters strides filter_dilations padding_below
      padding_above data_dilations op_scale None
      data_group_size filters_group_size trips group st = Ok st' /\
    convolution_nodes st' =
      convolution_nodes st ++
      (group_node data filters strides filter_dilations padding_below
         padding_above data_dilations op_scale data_group_size
         filters_group_size
         (data_lower_bounds st) (data_upper_bounds st)
         (filters_lower_bounds st) (filters_upper_bounds st)
       <$> counters trips group).
Proof.
  induction trips as [|n IH]; intros group st.
  - exists st. split; [reflexivity|]. simpl. now rewrite app_nil_r.
  - cbn [group_loop group_body bind].
    match goal with
    | |- context [group_loop _ _ _ _ _ _ _ _ _ _ _ n ?g ?s] =>
        destruct (IH g s) as (st' & Hrun & Hnodes)
    end.
    exists st'. split; [exact Hrun|].
    rewrite Hnodes. cbn [convolution_nodes data_lower_bounds data_upper_bounds
      filters_lower_bounds filters_upper_bounds counters].
    rewrite fmap_cons, <- app_assoc. cbn [app]. f_equal. f_equal.
    apply list_fmap_ext. intros _ k _. apply group_node_overwrite.
Qed.

(** With a bias the first pass already fails. *)
Lemma group_loop_bias (b : TensorRef) (trips : nat) (group : Z)
    (st : loop_state) :
  group_loop data filters strides filter_dilations padding_below
    padding_above data_dilations op_scale (Some b)
    data_group_size filters_group_size (S trips) group st
  = Throw (NotSupported bias_groups_message).
Proof. reflexivity. Qed.

End GroupLoopFacts.

(** ** make_ng_quant_conv, branch by branch *)

Section MakeNgQuantConvFacts.

Variables (data filters : TensorRef).
Variables (strides filter_dilations : Strides).
Variables (padding_below padding_above : CoordinateDiff).
Variable (data_dilations : Strides).
Variable (op_scale : OpScale).
Variables (dc fc : Z).
Hypothesis data_channels : get_shape data !! 1%nat = Some dc.
Hypothesis filters_channels : get_shape filters !! 0%nat = Some fc.

Lemma make_ng_quant_conv_single (groups : Z) (bias : option TensorRef) :
  groups <= 1 ->
  make_ng_quant_conv data filters strides filter_dilations padding_below
    padding_above data_dilations groups op_scale bias
  = Ok match bias with
       | Some b =>
           QuantizedLinearConvolutionBias
             (Input data) (Input filters) (Input b)
             strides filter_dilations padding_below padding_above
             data_dilations
             (Input (op_data_scale op_scale))
             (Input (op_filter_scale op_scale))
             (Input (op_output_scale op_scale))
       | None =>
           QuantizedLinearConvolution
             (Input data) (Input filters)
             strides filter_dilations padding_below padding_above
             data_dilations
             (Input (op_data_scale op_scale))
             (Input (op_filter_scale op_scale))
             (Input (op_output_scale op_scale))
       end.
Proof.
  intros H. unfold make_ng_quant_conv.
  destruct (Z.ltb_spec 1 groups); [lia|]. now destruct bias.
Qed.

Lemma make_ng_quant_conv_rejects (groups : Z) (b : TensorRef) :
  1 < groups -> is_int groups ->
  make_ng_quant_conv data filters strides filter_dilations padding_below
    padding_above data_dilations groups op_scale (Some b)
  = Throw (NotSupported bias_groups_message).
Proof.
  intros H Hi. unfold make_ng_quant_conv, at_.
  destruct (Z.ltb_spec 1 groups); [|lia].
  rewrite data_channels, filters_channels. cbn [bind].
  rewrite to_size_t_small by (apply is_int_is_size_t; [lia|assumption]).
  destruct (Z.to_nat groups) as [|n] eqn:Hn; [lia|].
  now rewrite group_loop_bias.
Qed.

(** The decomposition as the loop produces it, for any [groups > 1]. *)
Lemma make_ng_quant_conv_loop (groups : Z) :
  1 < groups ->
  make_ng_quant_conv data filters strides filter_dilations padding_below
    padding_above data_dilations groups op_scale None
  = Ok (Concat
          (group_node data filters strides filter_dilations padding_below
             padding_above data_dilations op_scale
             (dc / to_size_t groups) (fc / to_size_t groups)
             (replicate (length (get_shape data)) 0) (get_shape data)
             (replicate (length (get_shape filters)) 0) (get_shape filters)
           <$> counters (Z.to_nat (to_size_t groups)) 0)
          1).
Proof.
  intros H. unfold make_ng_quant_conv, at_.
  destruct (Z.ltb_spec 1 groups); [|lia].
  rewrite data_channels, filters_channels. cbn [bind].
  match goal with
  | |- context [group_loop _ _ _ _ _ _ _ _ _ ?a ?b ?n ?g ?s] =>
      destruct (group_loop_no_bias data filters strides filter_dilations
                  padding_below padding_above data_dilations op_scale
                  a b n g s) as (st' & Hrun & Hnodes)
  end.
  rewrite Hrun. cbn [bind]. rewrite Hnodes. reflexivity.
Qed.

(** The decomposition as the spec describes it, when the group count fits
    its [int] parameter and divides both channel counts. *)
Lemma make_ng_quant_conv_decomposes (groups : Z) :
  1 < groups -> is_int groups ->
  is_size_t dc -> is_size_t fc ->
  dc mod groups = 0 -> fc mod groups = 0 ->
  make_ng_quant_conv data filters strides filter_dilations padding_below
    padding_above data_dilations groups op_scale None
  = Ok (Concat
          (spec_group_node data filters strides filter_dilations
             padding_below padding_above data_dilations op_scale
             dc fc groups
           <$> seqZ 0 groups)
          1).
Proof.
  intros Hg Hi Hdc Hfc Hdm Hfm.
  rewrite make_ng_quant_conv_loop by assumption.
  assert (Hsz : is_size_t groups) by (apply is_int_is_size_t; [lia|assumption]).
  rewrite (to_size_t_small groups Hsz).
  rewrite counters_seqZ; [|lia|].
  2:{ unfold is_int, INT_MAX in Hi. unfold SIZE_WIDTH. lia. }
  rewrite Z2Nat.id by lia.
  do 2 f_equal. apply Forall_fmap_ext_1, Forall_seqZ. intros k Hk.
  unfold is_size_t in *.
  assert (Hk1 : size_t_add k 1 = k + 1).
  { apply size_t_add_small. unfold is_size_t. lia. }
  pose proof (group_bound dc groups k ltac:(lia) ltac:(lia) ltac:(lia)).
  pose proof (group_bound dc groups (k + 1) ltac:(lia) ltac:(lia) ltac:(lia)).
  pose proof (group_bound fc groups k ltac:(lia) ltac:(lia) ltac:(lia)).
  pose proof (group_bound fc groups (k + 1) ltac:(lia) ltac:(lia) ltac:(lia)).
  unfold group_node, spec_group_node, slice_along, group_range.
  cbn [fst snd]. rewrite Hk1.
  rewrite !size_t_mul_small by (unfold is_size_t; lia).
  rewrite !group_bound_exact by (assumption || lia).
  reflexivity.
Qed.

End MakeNgQuantConvFacts.

(** ** quant_conv: validation *)

Lemma is_int64_nonneg_size_t (z : Z) : 0 <= z -> is_int64 z -> is_size_t z.
Proof. unfold is_int64, is_size_t, SIZE_WIDTH. lia. Qed.

Lemma group_in_bounds_negative (groups : Z) (data filters : TensorRef) :
  groups < 0 -> group_in_bounds groups data filters = Ok false.
Proof.
  intros H. unfold group_in_bounds. now destruct (Z.leb_spec 0 groups); [lia|].
Qed.

Lemma group_in_bounds_nonneg (groups dc fc : Z) (data filters : TensorRef) :
  get_shape data !! 1%nat = Some dc ->
  get_shape filters !! 0%nat = Some fc ->
  0 <= groups -> is_int64 groups ->
  group_in_bounds groups data filters
  = Ok ((groups <=? dc) && (groups <=? fc)).
Proof.
  intros Hd Hf H0 Hi. unfold group_in_bounds, at_.
  destruct (Z.leb_spec 0 groups); [|lia].
  rewrite to_size_t_small by now apply is_int64_nonneg_size_t.
  rewrite Hd, Hf. cbn [bind]. now destruct (groups <=? dc).
Qed.

Section Validation.

Variable node : Node.
Variables data data_scale data_zero_point : TensorRef.
Variables filters filters_scale filter_zero_point : TensorRef.
Variables output_scale output_zero_point : TensorRef.
Variable rest : list TensorRef.
Variables dc fc : Z.

Hypothesis inputs :
  get_ng_inputs node =
    data :: data_scale :: data_zero_point ::
    filters :: filters_scale :: filter_zero_point ::
    output_scale :: output_zero_point :: rest.
Hypothesis data_channels : get_shape data !! 1%nat = Some dc.
Hypothesis filters_channels : get_shape filters !! 0%nat = Some fc.

Let groups : Z := get_attribute_value_group node 1.

(** The first steps of [quant_conv]: the five operands are found and the
    bound condition is evaluated. *)
Ltac enter_quant_conv :=
  unfold quant_conv; rewrite inputs;
  cbn [at_ lookup list_lookup bind];
  fold groups.

Lemma quant_conv_group_out_of_bounds :
  is_int64 groups -> groups < 0 \/ dc < groups \/ fc < groups ->
  quant_conv node
  = Throw (InvalidArgument (get_description node)
             [Text group_message; Int64 groups]).
Proof.
  intros Hi Hb. enter_quant_conv.
  destruct (Z.ltb_spec groups 0) as [Hneg|Hpos].
  - now rewrite group_in_bounds_negative.
  - rewrite (group_in_bounds_nonneg groups dc fc) by assumption.
    cbn [bind].
    replace ((groups <=? dc) && (groups <=? fc)) with false; [reflexivity|].
    symmetry. apply andb_false_iff. rewrite !Z.leb_gt. lia.
Qed.

Lemma quant_conv_group_zero :
  groups = 0 -> 0 <= dc -> 0 <= fc -> quant_conv node = Undefined.
Proof.
  intros Hz Hd Hf. enter_quant_conv.
  rewrite (group_in_bounds_nonneg groups dc fc);
    [|assumption|assumption|lia|unfold is_int64; lia].
  cbn [bind]. rewrite Hz.
  replace ((0 <=? dc) && (0 <=? fc)) with true.
  2:{ symmetry. apply andb_true_iff. rewrite !Z.leb_le. lia. }
  unfold at_. rewrite data_channels, filters_channels. reflexivity.
Qed.

(** Past the bound check with a positive group count. *)
Ltac pass_bound_check Hi Hpos Hdc Hfc :=
  enter_quant_conv;
  rewrite (group_in_bounds_nonneg groups dc fc)
    by (assumption || lia);
  cbn [bind];
  replace ((groups <=? dc) && (groups <=? fc)) with true
    by (symmetry; apply andb_true_iff; rewrite !Z.leb_le; lia);
  unfold at_ at 1 2; rewrite data_channels, filters_channels;
  cbn [ASSERT_VALID_ARGUMENT bind];
  rewrite (to_size_t_small groups)
    by (apply is_int64_nonneg_size_t; [lia|assumption]);
  unfold size_t_rem;
  destruct (Z.eqb_spec groups 0) as [?|_]; [lia|];
  cbn [bind].

Lemma quant_conv_data_not_multiple :
  is_int64 groups -> 0 < groups -> groups <= dc -> groups <= fc ->
  dc mod groups <> 0 ->
  quant_conv node
  = Throw (InvalidArgument (get_description node)
             [Text data_multiple_message]).
Proof.
  intros Hi Hpos Hdc Hfc Hm. pass_bound_check Hi Hpos Hdc Hfc.
  destruct (Z.eqb_spec (dc mod groups) 0); [contradiction|reflexivity].
Qed.

Lemma quant_conv_filters_not_multiple :
  is_int64 groups -> 0 < groups -> groups <= dc -> groups <= fc ->
  dc mod groups = 0 -> fc mod groups <> 0 ->
  quant_conv node
  = Throw (InvalidArgument (get_description node)
             [Text filters_multiple_message]).
Proof.
  intros Hi Hpos Hdc Hfc Hdm Hm. pass_bound_check Hi Hpos Hdc Hfc.
  rewrite Hdm. cbn [Z.eqb ASSERT_VALID_ARGUMENT bind].
  destruct (Z.eqb_spec (fc mod groups) 0); [contradiction|reflexivity].
Qed.

(** A group count that passes every assertion hands over to the dispatch. *)
Lemma quant_conv_validated :
  is_int64 groups -> 0 < groups -> groups <= dc -> groups <= fc ->
  dc mod groups = 0 -> fc mod groups = 0 ->
  quant_conv node
  = dispatch node data filters data_scale filters_scale output_scale groups.
Proof.
  intros Hi Hpos Hdc Hfc Hdm Hfm. pass_bound_check Hi Hpos Hdc Hfc.
  rewrite Hdm, Hfm. cbn [Z.eqb ASSERT_VALID_ARGUMENT bind].
  unfold dispatch. rewrite inputs. reflexivity.
Qed.

End Validation.

(** ** quant_conv: the dispatch, leaf by leaf *)

Lemma bias_given_inputs (x0 x1 x2 x3 x4 x5 x6 x7 : TensorRef)
    (rest : list TensorRef) :
  bias_given (x0 :: x1 :: x2 :: x3 :: x4 :: x5 :: x6 :: x7 :: rest)
  = Ok (bias_present rest).
Proof. destruct rest as [|b [|c rest]]; reflexivity. Qed.

Lemma bias_present_inv (rest : list TensorRef) :
  bias_present rest = true -> exists b, rest = [b] /\ is_null b = false.
Proof.
  destruct rest as [|b [|c rest]]; cbn; try discriminate.
  intros H. exists b. split; [reflexivity|]. now destruct (is_null b).
Qed.

Section Dispatch.

Variable node : Node.
Variables data data_scale data_zero_point : TensorRef.
Variables filters filters_scale filter_zero_point : TensorRef.
Variables output_scale output_zero_point : TensorRef.
Variable rest : list TensorRef.
Variables dc fc : Z.

Hypothesis inputs :
  get_ng_inputs node =
    data :: data_scale :: data_zero_point ::
    filters :: filters_scale :: filter_zero_point ::
    output_scale :: output_zero_point :: rest.
Hypothesis data_channels : get_shape data !! 1%nat = Some dc.
Hypothesis filters_channels : get_shape filters !! 0%nat = Some fc.

Let groups : Z := get_attribute_value_group node 1.

Hypothesis groups_int64 : is_int64 groups.
Hypothesis groups_positive : 0 < groups.
Hypothesis groups_le_data : groups <= dc.
Hypothesis groups_le_filters : groups <= fc.
Hypothesis data_multiple : dc mod groups = 0.
Hypothesis filters_multiple : fc mod groups = 0.

Ltac enter_dispatch :=
  rewrite (quant_conv_validated node data data_scale data_zero_point
             filters filters_scale filter_zero_point
             output_scale output_zero_point rest dc fc)
    by assumption;
  unfold dispatch; rewrite inputs, bias_given_inputs;
  cbn [bind]; fold groups.

Lemma quant_conv_fast_path :
  bias_present rest = false ->
  get_element_type filters = element.u8 -> groups = 1 ->
  quant_conv node
  = Ok [QuantizedLinearConvolution_zp
          (Input data) (Input filters)
          (convpool_strides node) (convpool_dilations node)
          (fst (convpool_pads node)) (snd (convpool_pads node))
          (replicate (length (convpool_kernel_shape node)) 1)
          (Input data_scale) (Input data_zero_point)
          (Input filters_scale) (Input filter_zero_point)
          (Input output_scale) (Input output_zero_point)].
Proof.
  intros Hb Ht Hg. enter_dispatch. rewrite Hb, Ht, Hg. reflexivity.
Qed.

Lemma quant_conv_plain :
  bias_present rest = false ->
  get_element_type filters <> element.u8 -> groups = 1 ->
  quant_conv node
  = Ok [QuantizedLinearConvolution
          (Input data) (Input filters)
          (convpool_strides node) (convpool_dilations node)
          (fst (convpool_pads node)) (snd (convpool_pads node))
          (replicate (length (convpool_kernel_shape node)) 1)
          (Input data_scale) (Input filters_scale) (Input output_scale)].
Proof.
  intros Hb Ht Hg. enter_dispatch. rewrite Hb, Hg.
  replace (element.eqb (get_element_type filters) element.u8) with false
    by (destruct (get_element_type filters); try reflexivity; congruence).
  reflexivity.
Qed.

Lemma quant_conv_bias_fused (b : TensorRef) :
  rest = [b] -> is_null b = false -> groups = 1 ->
  quant_conv node
  = Ok [QuantizedLinearConvolutionBias
          (Input data) (Input filters) (Input b)
          (convpool_strides node) (convpool_dilations node)
          (fst (convpool_pads node)) (snd (convpool_pads node))
          (replicate (length (convpool_kernel_shape node)) 1)
          (Input data_scale) (Input filters_scale) (Input output_scale)].
Proof.
  intros Hr Hn Hg. enter_dispatch. rewrite Hr, Hg. cbn [bias_present].
  rewrite Hn. reflexivity.
Qed.

Lemma quant_conv_rejects (b : TensorRef) :
  rest = [b] -> is_null b = false -> 1 < groups -> groups <= INT_MAX ->
  quant_conv node = Throw (NotSupported bias_groups_message).
Proof.
  intros Hr Hn Hg Hmax. enter_dispatch. rewrite Hr. cbn [bias_present].
  rewrite Hn. cbn [negb at_ lookup list_lookup bind].
  assert (Hi : is_int groups) by (unfold is_int, INT_MIN; lia).
  rewrite (to_int_small groups Hi).
  rewrite (make_ng_quant_conv_rejects data filters _ _ _ _ _ _ dc fc)
    by assumption.
  reflexivity.
Qed.

Lemma quant_conv_decomposes :
  bias_present rest = false -> 1 < groups -> groups <= INT_MAX ->
  is_size_t dc -> is_size_t fc ->
  quant_conv node
  = Ok [Concat
          (spec_group_node data filters
             (convpool_strides node) (convpool_dilations node)
             (fst (convpool_pads node)) (snd (convpool_pads node))
             (replicate (length (convpool_kernel_shape node)) 1)
             (mkOpScale data_scale filters_scale output_scale)
             dc fc groups
           <$> seqZ 0 groups)
          1].
Proof.
  intros Hb Hg Hmax Hdc Hfc. enter_dispatch. rewrite Hb.
  replace (groups =? 1) with false by (symmetry; apply Z.eqb_neq; lia).
  rewrite andb_false_r.
  assert (Hi : is_int groups) by (unfold is_int, INT_MIN; lia).
  rewrite (to_int_small groups Hi).
  rewrite (make_ng_quant_conv_decomposes data filters _ _ _ _ _ _ dc fc)
    by assumption.
  reflexivity.
Qed.

End Dispatch.

(** ** The partition of a channel axis *)

Lemma group_range_exact (size g i : Z) :
  0 < g -> size mod g = 0 ->
  group_range size g i = (i * (size / g), (i + 1) * (size / g)).
Proof.
  intros Hg Hm. unfold group_range.
  now rewrite <- !group_bound_exact by assumption.
Qed.

Lemma lookup_group_ranges (size g : Z) (i : nat) (r : Z * Z) :
  group_ranges size g !! i = Some r <->
  r = group_range size g (Z.of_nat i) /\ Z.of_nat i < g.
Proof.
  unfold group_ranges. rewrite list_lookup_fmap_Some. split.
  - intros (k & -> & Hk). apply lookup_seqZ in Hk as [-> Hlt].
    split; [f_equal; lia|assumption].
  - intros [-> Hlt]. exists (Z.of_nat i). split; [reflexivity|].
    apply lookup_seqZ. split; [lia|assumption].
Qed.

Lemma total_size_telescopes (size g : Z) (n : nat) :
  0 < g -> size mod g = 0 ->
  forall m : Z,
    total_size (group_range size g <$> seqZ m (Z.of_nat n))
    = Z.of_nat n * (size / g).
Proof.
  intros Hg Hm. induction n as [|n IH]; intros m.
  - reflexivity.
  - rewrite seqZ_cons by lia.
    replace (Z.pred (Z.of_nat (S n))) with (Z.of_nat n) by lia.
    rewrite fmap_cons. cbn [total_size]. rewrite IH.
    rewrite group_range_exact by assumption.
    unfold range_size. cbn [fst snd]. lia.
Qed.

Lemma total_size_group_ranges (size g : Z) :
  0 < g -> size mod g = 0 -> total_size (group_ranges size g) = size.
Proof.
  intros Hg Hm. unfold group_ranges.
  rewrite <- (Z2Nat.id g) at 2 by lia.
  rewrite total_size_telescopes by assumption.
  rewrite Z2Nat.id by lia.
  pose proof (Z.div_mod size g ltac:(lia)). lia.
Qed.

Lemma partitions_group_ranges (size g : Z) :
  0 < g -> 0 <= size -> size mod g = 0 ->
  partitions (group_ranges size g) size.
Proof.
  intros Hg Hs Hm.
  assert (Hsize : size = g * (size / g)).
  { pose proof (Z.div_mod size g ltac:(lia)). lia. }
  set (s := size / g) in *.
  assert (Hs0 : 0 <= s) by (apply Z.div_pos; lia).
  split.
  - intros c Hc.
    assert (Hspos : 0 < s) by nia.
    pose proof (Z.div_mod c s ltac:(lia)) as Hdiv.
    pose proof (Z.mod_pos_bound c s Hspos) as Hrem.
    assert (Hq0 : 0 <= c / s) by (apply Z.div_pos; lia).
    assert (Hqg : c / s < g) by nia.
    exists (Z.to_nat (c / s)), (group_range size g (c / s)).
    split; [|split].
    + apply lookup_group_ranges. rewrite Z2Nat.id by lia. auto.
    + rewrite group_range_exact by assumption. fold s.
      unfold in_range. cbn [fst snd]. nia.
    + intros j r' Hj Hin. apply lookup_group_ranges in Hj as [-> Hjg].
      rewrite group_range_exact in Hin by assumption. fold s in Hin.
      unfold in_range in Hin. cbn [fst snd] in Hin.
      assert (Z.of_nat j = c / s) by nia. lia.
  - intros i r c Hi Hin. apply lookup_group_ranges in Hi as [-> Hig].
    rewrite group_range_exact in Hin by assumption. fold s in Hin.
    unfold in_range in Hin. cbn [fst snd] in Hin. nia.
Qed.

(** ** What the per-group calls slice *)

Lemma slice_range_slice_along (axis : nat) (t : TensorRef) (r : Z * Z) :
  (axis < length (get_shape t))%nat ->
  slice_range axis (slice_along axis t r) = Some r.
Proof.
  intros H. unfold slice_range, slice_along.
  rewrite !list_lookup_insert_eq by (rewrite ?length_replicate; exact H).
  now destruct r.
Qed.

Section GroupCalls.

Variables (data filters : TensorRef).
Variables (strides filter_dilations : Strides).
Variables (padding_below padding_above : CoordinateDiff).
Variable (data_dilations : Strides).
Variable (op_scale : OpScale).
Variables (dc fc g : Z).
Hypothesis data_channels : get_shape data !! 1%nat = Some dc.
Hypothesis filters_channels : get_shape filters !! 0%nat = Some fc.

Local Abbreviation call :=
  (spec_group_node data filters strides filter_dilations padding_below
     padding_above data_dilations op_scale dc fc g).

Lemma data_channel_range_call (i : Z) :
  data_channel_range (call i) = Some (group_range dc g i).
Proof.
  unfold data_channel_range, spec_group_node. cbn [operands_of].
  apply slice_range_slice_along. now apply lookup_lt_Some in data_channels.
Qed.

Lemma filter_channel_range_call (i : Z) :
  filter_channel_range (call i) = Some (group_range fc g i).
Proof.
  unfold filter_channel_range, spec_group_node. cbn [operands_of].
  apply slice_range_slice_along. now apply lookup_lt_Some in filters_channels.
Qed.

Lemma conv_output_channels_call (i : Z) :
  conv_output_channels (call i) = Some (range_size (group_range fc g i)).
Proof.
  pose proof (filter_channel_range_call i) as H.
  unfold filter_channel_range in H.
  unfold conv_output_channels, spec_group_node in *. cbn [operands_of] in *.
  unfold extent, slice_along in *. rewrite H. now destruct (group_range fc g i).
Qed.

Lemma sum_channels_calls (l : list Z) :
  sum_channels (call <$> l) = Some (total_size (group_range fc g <$> l)).
Proof.
  induction l as [|i l IH]; [reflexivity|].
  rewrite !fmap_cons. cbn [sum_channels total_size].
  now rewrite conv_output_channels_call, IH.
Qed.

End GroupCalls.

(** ** Successful conversions, read backwards *)

Lemma bind_Ok_inv {A B : Type} (m : result A) (k : A -> result B) (b : B) :
  bind m k = Ok b -> exists a, m = Ok a /\ k a = Ok b.
Proof. destruct m as [a| |]; cbn; [eauto|discriminate|discriminate]. Qed.

Lemma at_Ok_inv {A : Type} (v : list A) (i : nat) (x : A) :
  at_ v i = Ok x -> v !! i = Some x.
Proof. unfold at_. destruct (v !! i); now inversion 1. Qed.

Lemma make_ng_quant_conv_Ok_inv
    (data filters : TensorRef)
    (strides filter_dilations : Strides)
    (padding_below padding_above : CoordinateDiff)
    (data_dilations : Strides) (groups : Z) (op_scale : OpScale)
    (bias : option TensorRef) (n : NgNode) :
  make_ng_quant_conv data filters strides filter_dilations padding_below
    padding_above data_dilations groups op_scale bias = Ok n ->
  (groups <= 1 /\
   n = match bias with
       | Some b =>
           QuantizedLinearConvolutionBias
             (Input data) (Input filters) (Input b)
             strides filter_dilations padding_below padding_above
             data_dilations
             (Input (op_data_scale op_scale))
             (Input (op_filter_scale op_scale))
             (Input (op_output_scale op_scale))
       | None =>
           QuantizedLinearConvolution
             (Input data) (Input filters)
             strides filter_dilations padding_below padding_above
             data_dilations
             (Input (op_data_scale op_scale))
             (Input (op_filter_scale op_scale))
             (Input (op_output_scale op_scale))
       end) \/
  (1 < groups /\
   exists calls,
     n = Concat calls 1 /\
     length calls = Z.to_nat (to_size_t groups) /\
     Forall (is_group_call data filters strides filter_dilations
               padding_below padding_above data_dilations op_scale) calls).
Proof.
  intros H. destruct (Z.le_gt_cases groups 1) as [Hle|Hgt].
  - left. split; [assumption|].
    rewrite make_ng_quant_conv_single in H by assumption. now inversion H.
  - right. split; [lia|].
    unfold make_ng_quant_conv in H.
    destruct (Z.ltb_spec 1 groups); [|lia].
    apply bind_Ok_inv in H as (dc & Hdc & H).
    apply bind_Ok_inv in H as (fc & Hfc & H).
    apply bind_Ok_inv in H as (st & Hrun & H).
    inversion H; subst n; clear H.
    exists (convolution_nodes st). split; [reflexivity|].
    destruct bias as [b|].
    + destruct (Z.to_nat (to_size_t groups)) as [|trips].
      * cbn in Hrun. inversion Hrun; subst st. cbn. auto.
      * rewrite group_loop_bias in Hrun. discriminate.
    + match type of Hrun with
      | group_loop _ _ _ _ _ _ _ _ _ ?a ?b ?t ?g ?s = _ =>
          destruct (group_loop_no_bias data filters strides
                      filter_dilations padding_below padding_above
                      data_dilations op_scale a b t g s)
            as (st' & Hrun' & Hnodes)
      end.
      rewrite Hrun' in Hrun. inversion Hrun; subst st'.
      rewrite Hnodes. cbn [convolution_nodes app].
      split; [now rewrite length_fmap, length_counters|].
      apply Forall_fmap, Forall_forall. intros k _. cbn.
      unfold is_group_call. eauto 10.
Qed.

(** How [quant_conv] arrived at a node list it returned. *)
Lemma quant_conv_Ok_inv (node : Node) (nodes : list NgNode) :
  quant_conv node = Ok nodes ->
  exists data filters data_scale filters_scale output_scale conv_node,
    get_ng_inputs node !! 0%nat = Some data /\
    get_ng_inputs node !! 3%nat = Some filters /\
    get_ng_inputs node !! 1%nat = Some data_scale /\
    get_ng_inputs node !! 4%nat = Some filters_scale /\
    get_ng_inputs node !! 6%nat = Some output_scale /\
    nodes = [conv_node] /\
    ((exists data_zero_point filter_zero_point output_zero_point,
        get_attribute_value_group node 1 = 1 /\
        bias_given (get_ng_inputs node) = Ok false /\
        conv_node =
          QuantizedLinearConvolution_zp
            (Input data) (Input filters)
            (convpool_strides node) (convpool_dilations node)
            (fst (convpool_pads node)) (snd (convpool_pads node))
            (replicate (length (convpool_kernel_shape node)) 1)
            (Input data_scale) (Input data_zero_point)
            (Input filters_scale) (Input filter_zero_point)
            (Input output_scale) (Input output_zero_point)) \/
     (exists bias,
        bias_given (get_ng_inputs node) = Ok (bool_decide (is_Some bias)) /\
        make_ng_quant_conv data filters
          (convpool_strides node) (convpool_dilations node)
          (fst (convpool_pads node)) (snd (convpool_pads node))
          (replicate (length (convpool_kernel_shape node)) 1)
          (to_int (get_attribute_value_group node 1))
          (mkOpScale data_scale filters_scale output_scale) bias
        = Ok conv_node)).
Proof.
  unfold quant_conv. intros H.
  apply bind_Ok_inv in H as (data & Hdata & H).
  apply bind_Ok_inv in H as (filters & Hfilters & H).
  apply bind_Ok_inv in H as (data_scale & Hds & H).
  apply bind_Ok_inv in H as (filters_scale & Hfs & H).
  apply bind_Ok_inv in H as (output_scale & Hos & H).
  apply bind_Ok_inv in H as (in_bounds & _ & H).
  apply bind_Ok_inv in H as (_ & _ & H).
  apply bind_Ok_inv in H as (n_data_channels & _ & H).
  apply bind_Ok_inv in H as (n_filters_channels & _ & H).
  apply bind_Ok_inv in H as (r_data & _ & H).
  apply bind_Ok_inv in H as (_ & _ & H).
  apply bind_Ok_inv in H as (r_filters & _ & H).
  apply bind_Ok_inv in H as (_ & _ & H).
  apply bind_Ok_inv in H as (has_bias & Hbias & H).
  apply bind_Ok_inv in H as (conv_node & Hconv & H).
  inversion H; subst nodes; clear H.
  apply at_Ok_inv in Hdata, Hfilters, Hds, Hfs, Hos.
  exists data, filters, data_scale, filters_scale, output_scale, conv_node.
  do 6 (split; [assumption || reflexivity|]).
  destruct has_bias.
  - right. apply bind_Ok_inv in Hconv as (bias & _ & Hconv).
    exists (Some bias). split; [exact Hbias|exact Hconv].
  - destruct (element.eqb (get_element_type filters) element.u8 &&
              (get_attribute_value_group node 1 =? 1)) eqn:Hfast.
    + left.
      apply bind_Ok_inv in Hconv as (data_zero_point & _ & Hconv).
      apply bind_Ok_inv in Hconv as (filter_zero_point & _ & Hconv).
      apply bind_Ok_inv in Hconv as (output_zero_point & _ & Hconv).
      inversion Hconv; subst conv_node.
      exists data_zero_point, filter_zero_point, output_zero_point.
      apply andb_true_iff in Hfast as [_ Hg]. apply Z.eqb_eq in Hg.
      auto.
    + right. exists None. split; [exact Hbias|exact Hconv].
Qed.

(** ** Failed conversions, read backwards *)

Lemma bind_Throw_inv {A B : Type} (m : result A) (k : A -> result B)
    (e : exn) :
  bind m k = Throw e -> m = Throw e \/ exists a, m = Ok a /\ k a = Throw e.
Proof.
  destruct m as [a|e'|]; cbn; intros H.
  - right. exists a. auto.
  - left. now inversion H.
  - discriminate.
Qed.

Lemma at_Throw_inv {A : Type} (v : list A) (i : nat) (e : exn) :
  at_ v i = Throw e -> e = out_of_range.
Proof. unfold at_. destruct (v !! i); now inversion 1. Qed.

Lemma ASSERT_VALID_ARGUMENT_Throw_inv (node : Node) (cond : bool)
    (msg : list item) (e : exn) :
  ASSERT_VALID_ARGUMENT node cond msg = Throw e ->
  e = InvalidArgument (get_description node) msg.
Proof. unfold ASSERT_VALID_ARGUMENT. destruct cond; now inversion 1. Qed.

Lemma size_t_rem_Throw_inv (a b : Z) (e : exn) :
  size_t_rem a b = Throw e -> False.
Proof. unfold size_t_rem. destruct (b =? 0); discriminate. Qed.

Lemma group_in_bounds_Throw_inv (groups : Z) (data filters : TensorRef)
    (e : exn) :
  group_in_bounds groups data filters = Throw e -> e = out_of_range.
Proof.
  unfold group_in_bounds, at_. intros H.
  destruct (0 <=? groups); [|discriminate].
  destruct (get_shape data !! 1%nat); cbn in H; [|now inversion H].
  destruct (to_size_t groups <=? z); [|discriminate].
  destruct (get_shape filters !! 0%nat); cbn in H; now inversion H.
Qed.

Lemma bias_given_Throw_inv (inputs : list TensorRef) (e : exn) :
  bias_given inputs = Throw e -> e = out_of_range.
Proof.
  unfold bias_given, at_. intros H.
  destruct (length inputs =? 9)%nat; [|discriminate].
  destruct (inputs !! 8%nat); cbn in H; now inversion H.
Qed.

(** Without a bias [make_ng_quant_conv] can only fail on a shape that lacks
    the channel axis. *)
Lemma make_ng_quant_conv_no_bias_Throw_inv
    (data filters : TensorRef)
    (strides filter_dilations : Strides)
    (padding_below padding_above : CoordinateDiff)
    (data_dilations : Strides) (groups : Z) (op_scale : OpScale) (e : exn) :
  make_ng_quant_conv data filters strides filter_dilations padding_below
    padding_above data_dilations groups op_scale None = Throw e ->
  e = out_of_range.
Proof.
  unfold make_ng_quant_conv. intros H.
  destruct (1 <? groups); [|discriminate].
  apply bind_Throw_inv in H as [H|(dc & _ & H)];
    [now apply at_Throw_inv in H|].
  apply bind_Throw_inv in H as [H|(fc & _ & H)];
    [now apply at_Throw_inv in H|].
  match type of H with
  | context [group_loop _ _ _ _ _ _ _ _ _ ?a ?b ?t ?g ?s] =>
      destruct (group_loop_no_bias data filters strides filter_dilations
                  padding_below padding_above data_dilations op_scale
                  a b t g s) as (st' & Hrun & _)
  end.
  rewrite Hrun in H. discriminate.
Qed.

(** Only a call with a bias can be rejected as unsupported. *)
Lemma quant_conv_NotSupported_inv (node : Node) (msg : string) :
  quant_conv node = Throw (NotSupported msg) ->
  bias_given (get_ng_inputs node) = Ok true.
Proof.
  unfold quant_conv. intros H.
  repeat match type of H with
  | bind (at_ _ _) _ = Throw _ =>
      apply bind_Throw_inv in H as [H|(? & _ & H)];
        [apply at_Throw_inv in H; discriminate|]
  | bind (group_in_bounds _ _ _) _ = Throw _ =>
      apply bind_Throw_inv in H as [H|(? & _ & H)];
        [apply group_in_bounds_Throw_inv in H; discriminate|]
  | bind (ASSERT_VALID_ARGUMENT _ _ _) _ = Throw _ =>
      apply bind_Throw_inv in H as [H|(? & _ & H)];
        [apply ASSERT_VALID_ARGUMENT_Throw_inv in H; discriminate|]
  | bind (size_t_rem _ _) _ = Throw _ =>
      apply bind_Throw_inv in H as [H|(? & _ & H)];
        [now apply size_t_rem_Throw_inv in H|]
  end.
  apply bind_Throw_inv in H as [H|(has_bias & Hbias & H)];
    [apply bias_given_Throw_inv in H; discriminate|].
  destruct has_bias; [exact Hbias|exfalso].
  apply bind_Throw_inv in H as [H|(? & _ & H)]; [|discriminate].
  match type of H with
  | (if ?c then _ else _) = _ => destruct c
  end.
  - repeat match type of H with
    | bind (at_ _ _) _ = Throw _ =>
        apply bind_Throw_inv in H as [H|(? & _ & H)];
          [apply at_Throw_inv in H; discriminate|]
    end.
    discriminate.
  - apply make_ng_quant_conv_no_bias_Throw_inv in H. discriminate.
Qed.

(** * The operator's properties *)

Lemma to_int_1 : to_int 1 = 1.
Proof. reflexivity. Qed.

Lemma is_group_call_primitive
    (data filters : TensorRef)
    (strides filter_dilations : Strides)
    (padding_below padding_above : CoordinateDiff)
    (data_dilations : Strides) (op_scale : OpScale) (c : NgNode) :
  is_group_call data filters strides filter_dilations padding_below
    padding_above data_dilations op_scale c ->
  is_primitive c = true /\ is_bias_fused c = false /\
  data_dilations_of c = Some data_dilations.
Proof. intros (dgs & fgs & dl & du & fl & fu & k & ->). now cbn. Qed.

Lemma to_int_is_int (z : Z) : is_int (to_int z).
Proof.
  unfold is_int, to_int, INT_MIN, INT_MAX.
  pose proof (Z.mod_pos_bound (z + 2 ^ 31) (2 ^ 32) ltac:(lia)). lia.
Qed.

Lemma small_is_int64 (z : Z) : 0 < z <= INT_MAX -> is_int64 z.
Proof. unfold is_int64, INT_MAX. lia. Qed.

Section Operator.

Variable node : Node.
Variables data data_scale data_zero_point : TensorRef.
Variables filters filters_scale filter_zero_point : TensorRef.
Variables output_scale output_zero_point : TensorRef.
Variable rest : list TensorRef.
Variables dc fc : Z.

Hypothesis inputs :
  get_ng_inputs node =
    data :: data_scale :: data_zero_point ::
    filters :: filters_scale :: filter_zero_point ::
    output_scale :: output_zero_point :: rest.
Hypothesis data_channels : get_shape data !! 1%nat = Some dc.
Hypothesis filters_channels : get_shape filters !! 0%nat = Some fc.

Let groups : Z := get_attribute_value_group node 1.

(** Premises of the leaf lemmas: found among the hypotheses, or arithmetic. *)
Ltac premise :=
  first [ eassumption
        | apply small_is_int64; lia
        | unfold is_int64, INT_MAX in *; lia
        | lia ].

(** C1, as amended.  For a call that passes validation, the outcome of
    [quant_conv] comes from exactly one leaf, fixed by the group count, the
    presence of a bias and the filter precision as [code_dispatch] says: a
    bias is looked at first (rejected when [g > 1], fused into a single call
    when [g = 1], whatever the filter precision); without a bias, [g = 1]
    with a [u8] filter takes the fast path, whose single call receives the
    three zero points next to the three scales. *)
Theorem dispatch_takes_one_leaf :
  is_size_t dc -> is_size_t fc ->
  0 < groups <= INT_MAX -> groups <= dc -> groups <= fc ->
  dc mod groups = 0 -> fc mod groups = 0 ->
  executed_leaf (quant_conv node)
  = Some (code_dispatch groups (bias_present rest)
            (element.eqb (get_element_type filters) element.u8)) /\
  (groups = 1 -> bias_present rest = false ->
   get_element_type filters = element.u8 ->
   quant_conv node
   = Ok [QuantizedLinearConvolution_zp
           (Input data) (Input filters)
           (convpool_strides node) (convpool_dilations node)
           (fst (convpool_pads node)) (snd (convpool_pads node))
           (replicate (length (convpool_kernel_shape node)) 1)
           (Input data_scale) (Input data_zero_point)
           (Input filters_scale) (Input filter_zero_point)
           (Input output_scale) (Input output_zero_point)]).
Proof.
  subst groups. intros Hdc Hfc Hg Hgd Hgf Hdm Hfm.
  split.
  - unfold code_dispatch.
    destruct (bias_present rest) eqn:Hb.
    + apply bias_present_inv in Hb as (b & Hrest & Hnull).
      destruct (Z.ltb_spec 1 (get_attribute_value_group node 1))
        as [Hgt|Hle].
      * erewrite quant_conv_rejects by premise. reflexivity.
      * erewrite quant_conv_bias_fused by premise. reflexivity.
    + destruct (Z.ltb_spec 1 (get_attribute_value_group node 1))
        as [Hgt|Hle].
      * replace (get_attribute_value_group node 1 =? 1) with false
          by (symmetry; apply Z.eqb_neq; lia).
        rewrite andb_false_r.
        erewrite quant_conv_decomposes by premise. reflexivity.
      * assert (Hone : get_attribute_value_group node 1 = 1) by lia.
        rewrite Hone. cbn [Z.eqb Pos.eqb]. rewrite andb_true_r.
        destruct (element.eqb (get_element_type filters) element.u8) eqn:Ht.
        -- assert (get_element_type filters = element.u8)
             by (destruct (get_element_type filters);
                 (reflexivity || discriminate)).
           erewrite quant_conv_fast_path by premise. reflexivity.
        -- assert (get_element_type filters <> element.u8)
             by (intros Hu; rewrite Hu in Ht; discriminate).
           erewrite quant_conv_plain by premise. reflexivity.
  - intros Hone Hb Ht.
    eapply quant_conv_fast_path; premise.
Qed.

(** The rejection of a bias with groups, where it works: with a bias
    present and a group count above one that the [int] parameter of
    [make_ng_quant_conv] holds, a call that passes validation fails with
    [NotSupported], which is not the validation error [InvalidArgument]. *)
Theorem grouped_bias_not_supported (b : TensorRef) :
  rest = [b] -> is_null b = false ->
  1 < groups <= INT_MAX -> groups <= dc -> groups <= fc ->
  dc mod groups = 0 -> fc mod groups = 0 ->
  quant_conv node = Throw (NotSupported bias_groups_message) /\
  forall (who : string) (msg : list item),
    NotSupported bias_groups_message <> InvalidArgument who msg.
Proof.
  subst groups. intros Hrest Hnull Hg Hgd Hgf Hdm Hfm.
  split; [|discriminate].
  eapply quant_conv_rejects; premise.
Qed.

(** C3, what the code does.  A group count of zero passes the bound
    assertion ([groups >= 0]), and the next statement takes the remainder of
    the data channel count by zero: the conversion has no defined outcome,
    and in particular signals no validation error. *)
Theorem zero_group_divides_by_zero :
  groups = 0 -> 0 <= dc -> 0 <= fc ->
  quant_conv node = Undefined /\
  forall (who : string) (msg : list item),
    quant_conv node <> Throw (InvalidArgument who msg).
Proof.
  subst groups. intros Hz Hd Hf.
  assert (H : quant_conv node = Undefined)
    by (eapply quant_conv_group_zero; premise).
  split; [exact H|]. intros who msg. rewrite H. discriminate.
Qed.

(** The decomposition, where it works: with no bias and a group count
    above one that the [int] parameter of [make_ng_quant_conv] holds and
    that divides both channel counts, the conversion returns the concatenation
    along axis 1 of one call per group; call [i] slices the data along the
    channel axis to [[i*dc/g, (i+1)*dc/g)] and the filters along the
    output-channel axis to [[i*fc/g, (i+1)*fc/g)].  Either family of ranges
    is pairwise disjoint and covers its axis exactly, the range sizes add up
    to the channel count, and the concatenation has as many channels as the
    filter has output channels. *)
Theorem group_slices_partition_channels :
  bias_present rest = false ->
  is_size_t dc -> is_size_t fc ->
  1 < groups <= INT_MAX -> groups <= dc -> groups <= fc ->
  dc mod groups = 0 -> fc mod groups = 0 ->
  exists calls : list NgNode,
    quant_conv node = Ok [Concat calls 1] /\
    data_channel_range <$> calls = Some <$> group_ranges dc groups /\
    filter_channel_range <$> calls = Some <$> group_ranges fc groups /\
    partitions (group_ranges dc groups) dc /\
    partitions (group_ranges fc groups) fc /\
    total_size (group_ranges dc groups) = dc /\
    total_size (group_ranges fc groups) = fc /\
    output_channels (Concat calls 1) = Some fc.
Proof.
  subst groups. intros Hb Hdc Hfc Hg Hgd Hgf Hdm Hfm.
  eexists. split; [eapply quant_conv_decomposes; premise|].
  unfold is_size_t in *.
  split; [|split; [|split; [|split; [|split; [|split]]]]].
  - unfold group_ranges. rewrite <- !list_fmap_compose.
    apply list_fmap_ext. intros _ i _. unfold compose.
    eapply data_channel_range_call; eassumption.
  - unfold group_ranges. rewrite <- !list_fmap_compose.
    apply list_fmap_ext. intros _ i _. unfold compose.
    eapply filter_channel_range_call; eassumption.
  - apply partitions_group_ranges; lia.
  - apply partitions_group_ranges; lia.
  - apply total_size_group_ranges; lia.
  - apply total_size_group_ranges; lia.
  - cbn [output_channels].
    erewrite sum_channels_calls by eassumption.
    f_equal. apply total_size_group_ranges; lia.
Qed.

(** C5, as amended.  For a nonzero group count that does not divide the
    data channel count, or does not divide the filter output-channel count,
    the conversion fails with the validation error [InvalidArgument] for
    the node.  A group count that is negative or above a channel count gets
    the bound message, the only one that carries a value, the group count;
    otherwise the message is the fixed text of the divisibility assertion
    that failed, data first, and carries no value. *)
Theorem indivisible_channels_invalid_argument :
  is_int64 groups -> groups <> 0 ->
  dc mod groups <> 0 \/ fc mod groups <> 0 ->
  exists msg : list item,
    quant_conv node = Throw (InvalidArgument (get_description node) msg) /\
    (msg = [Text group_message; Int64 groups] /\
       (groups < 0 \/ dc < groups \/ fc < groups)
     \/ msg = [Text data_multiple_message] /\
       0 < groups <= dc /\ groups <= fc /\ dc mod groups <> 0
     \/ msg = [Text filters_multiple_message] /\
       0 < groups <= dc /\ groups <= fc /\
       dc mod groups = 0 /\ fc mod groups <> 0) /\
    (forall v : Z, carries msg v ->
       v = groups /\ (groups < 0 \/ dc < groups \/ fc < groups)).
Proof.
  subst groups. intros Hi Hnz Hm.
  set (g := get_attribute_value_group node 1) in *.
  assert (Hcases : (g < 0 \/ dc < g \/ fc < g) \/
                   (0 < g <= dc /\ g <= fc)) by lia.
  destruct Hcases as [Hout|[Hgd Hgf]].
  - exists [Text group_message; Int64 g]. split.
    { eapply quant_conv_group_out_of_bounds; eassumption. }
    split; [left; split; [reflexivity|assumption]|].
    intros v [Hv|[Hv|[]]]; [discriminate|].
    inversion Hv. split; [reflexivity|assumption].
  - destruct (Z.eq_dec (dc mod g) 0) as [Hdm|Hdm].
    + assert (Hfm : fc mod g <> 0) by (destruct Hm; [contradiction|auto]).
      exists [Text filters_multiple_message]. split.
      { eapply quant_conv_filters_not_multiple; premise. }
      split; [right; right; repeat split; (assumption || lia)|].
      intros v [Hv|[]]. discriminate.
    + exists [Text data_multiple_message]. split.
      { eapply quant_conv_data_not_multiple; premise. }
      split; [right; left; repeat split; (assumption || lia)|].
      intros v [Hv|[]]. discriminate.
Qed.

(** C6.  With more than one group and no bias, in a call that passes
    validation, every primitive call that is emitted, and there is at least
    one, receives as its three scales exactly the data scale, filter scale
    and output scale nodes of the operator (inputs 1, 4 and 6).  For a group
    count that the [int] parameter of [make_ng_quant_conv] holds, the calls
    are the [g] arguments of the concatenation. *)
Theorem group_calls_share_scales :
  bias_present rest = false ->
  is_int64 groups -> 1 < groups -> groups <= dc -> groups <= fc ->
  dc mod groups = 0 -> fc mod groups = 0 ->
  exists n : NgNode,
    quant_conv node = Ok [n] /\
    primitive_calls n <> [] /\
    Forall (fun c => scales_of c
                     = Some (Input data_scale, Input filters_scale,
                             Input output_scale))
           (primitive_calls n) /\
    (groups <= INT_MAX ->
     exists calls : list NgNode,
       n = Concat calls 1 /\ length calls = Z.to_nat groups).
Proof.
  subst groups. intros Hb Hi Hg Hgd Hgf Hdm Hfm.
  rewrite (quant_conv_validated node data data_scale data_zero_point
             filters filters_scale filter_zero_point
             output_scale output_zero_point rest dc fc)
    by (assumption || lia).
  unfold dispatch. rewrite inputs, bias_given_inputs, Hb. cbn [bind].
  replace (get_attribute_value_group node 1 =? 1) with false
    by (symmetry; apply Z.eqb_neq; lia).
  rewrite andb_false_r.
  pose proof (to_int_is_int (get_attribute_value_group node 1)) as Hint.
  destruct (Z.le_gt_cases (to_int (get_attribute_value_group node 1)) 1)
    as [Hle|Hgt].
  - rewrite make_ng_quant_conv_single by assumption. cbn [bind].
    eexists. split; [reflexivity|]. split; [discriminate|].
    split; [repeat constructor|].
    intros Hmax. rewrite to_int_small in Hle; [lia|].
    unfold is_int, INT_MIN. lia.
  - rewrite (make_ng_quant_conv_loop data filters _ _ _ _ _ _ dc fc)
      by (assumption || lia).
    cbn [bind]. eexists. split; [reflexivity|].
    cbn [primitive_calls].
    rewrite to_size_t_small by (apply is_int_is_size_t; [lia|exact Hint]).
    split; [|split].
    + intros Hnil. apply (f_equal length) in Hnil.
      rewrite length_fmap, length_counters in Hnil. cbn [length] in Hnil.
      lia.
    + apply Forall_fmap, Forall_forall. intros i _. reflexivity.
    + intros Hmax. eexists. split; [reflexivity|].
      rewrite length_fmap, length_counters, to_int_small; [reflexivity|].
      unfold is_int, INT_MIN. lia.
Qed.

(** C7.  With a single group and a bias present, the conversion returns one
    bias-fused call on the data and filter nodes as they came in: no slice
    and no concatenation.  The filter precision plays no part. *)
Theorem single_group_bias_fused_call (b : TensorRef) :
  rest = [b] -> is_null b = false ->
  groups = 1 -> 1 <= dc -> 1 <= fc ->
  quant_conv node
  = Ok [QuantizedLinearConvolutionBias
          (Input data) (Input filters) (Input b)
          (convpool_strides node) (convpool_dilations node)
          (fst (convpool_pads node)) (snd (convpool_pads node))
          (replicate (length (convpool_kernel_shape node)) 1)
          (Input data_scale) (Input filters_scale) (Input output_scale)].
Proof.
  subst groups. intros Hrest Hnull Hg Hd Hf.
  eapply quant_conv_bias_fused;
    first [ eassumption
          | rewrite Hg; apply Z.mod_1_r
          | rewrite Hg; unfold is_int64; lia ].
Qed.

(** C8.  When the ninth input is there but is the null node, the conversion
    gives what it gives for the same operator with the first eight inputs
    only; it is never rejected as unsupported and emits no bias-fused
    call. *)
Theorem null_bias_same_as_absent (b : TensorRef) :
  rest = [b] -> is_null b = true ->
  quant_conv node
  = quant_conv
      (with_inputs node
         [data; data_scale; data_zero_point;
          filters; filters_scale; filter_zero_point;
          output_scale; output_zero_point]) /\
  (forall msg : string, quant_conv node <> Throw (NotSupported msg)) /\
  (forall nodes : list NgNode,
     quant_conv node = Ok nodes ->
     Forall (fun n => Forall (fun c => is_bias_fused c = false)
                        (n :: primitive_calls n)) nodes).
Proof.
  intros Hrest Hnull.
  assert (Hnobias : bias_given (get_ng_inputs node) = Ok false).
  { rewrite inputs, bias_given_inputs, Hrest. cbn. now rewrite Hnull. }
  split; [|split].
  - unfold quant_conv at 1. rewrite Hnobias. rewrite inputs.
    reflexivity.
  - intros msg H. apply quant_conv_NotSupported_inv in H.
    rewrite Hnobias in H. discriminate.
  - intros nodes H.
    apply quant_conv_Ok_inv in H
      as (d & f & ds & fs & os & n & _ & _ & _ & _ & _ & -> & Hn).
    constructor; [|constructor].
    destruct Hn as [(z1 & z2 & z3 & _ & _ & ->)|(bias & Hbias & Hmk)].
    + repeat constructor.
    + rewrite Hnobias in Hbias. destruct bias as [b'|]; [discriminate|].
      apply make_ng_quant_conv_Ok_inv in Hmk
        as [[_ ->]|(_ & calls & -> & _ & Hcalls)].
      * repeat constructor.
      * cbn [primitive_calls]. constructor; [reflexivity|].
        eapply Forall_impl; [exact Hcalls|].
        intros c Hc. now apply is_group_call_primitive in Hc.
Qed.

End Operator.

(** C9.  A conversion that succeeds returns a list of exactly one node: for
    a single group a primitive call, for more groups the concatenation
    along axis 1 of the [g] per-group calls, never the per-group calls
    themselves. *)
Theorem conversion_returns_one_node (node : Node) (nodes : list NgNode) :
  quant_conv node = Ok nodes ->
  exists n : NgNode,
    nodes = [n] /\
    (get_attribute_value_group node 1 = 1 -> is_primitive n = true) /\
    (1 < get_attribute_value_group node 1 <= INT_MAX ->
     exists calls : list NgNode,
       n = Concat calls 1 /\
       length calls = Z.to_nat (get_attribute_value_group node 1) /\
       Forall (fun c => is_primitive c = true) calls).
Proof.
  intros H.
  apply quant_conv_Ok_inv in H
    as (d & f & ds & fs & os & n & _ & _ & _ & _ & _ & -> & Hn).
  exists n. split; [reflexivity|].
  destruct Hn as [(z1 & z2 & z3 & Hg & _ & ->)|(bias & _ & Hmk)].
  - split; [reflexivity|]. intros Hgt. lia.
  - apply make_ng_quant_conv_Ok_inv in Hmk
      as [[Hle ->]|(Hgt & calls & -> & Hlen & Hcalls)].
    + split; [intros _; now destruct bias|].
      intros Hg. rewrite to_int_small in Hle; [lia|].
      unfold is_int, INT_MIN. lia.
    + split.
      * intros Hg. rewrite Hg, to_int_1 in Hgt. lia.
      * intros Hg. exists calls. split; [reflexivity|].
        assert (Hi : is_int (get_attribute_value_group node 1))
          by (unfold is_int, INT_MIN; lia).
        rewrite (to_int_small _ Hi) in Hlen.
        rewrite to_size_t_small in Hlen
          by (apply is_int_is_size_t; [lia|exact Hi]).
        split; [exact Hlen|].
        eapply Forall_impl; [exact Hcalls|].
        intros c Hc. now apply is_group_call_primitive in Hc.
Qed.

(** C10.  In a conversion that succeeds every emitted node stands for at
    least one primitive call, and the data dilations of each call are ones,
    as many as the kernel shape has entries: they depend on the operator
    through the rank of its kernel shape only. *)
Theorem data_dilations_all_ones (node : Node) (nodes : list NgNode) :
  quant_conv node = Ok nodes ->
  Forall (fun n =>
            primitive_calls n <> [] /\
            Forall (fun c =>
                      data_dilations_of c
                      = Some (replicate
                                (length (convpool_kernel_shape node)) 1))
                   (primitive_calls n))
         nodes.
Proof.
  intros H.
  apply quant_conv_Ok_inv in H
    as (d & f & ds & fs & os & n & _ & _ & _ & _ & _ & -> & Hn).
  constructor; [|constructor].
  destruct Hn as [(z1 & z2 & z3 & _ & _ & ->)|(bias & _ & Hmk)].
  - split; [discriminate|]. repeat constructor.
  - apply make_ng_quant_conv_Ok_inv in Hmk
      as [[_ ->]|(Hgt & calls & -> & Hlen & Hcalls)].
    + destruct bias; (split; [discriminate|]); repeat constructor.
    + cbn [primitive_calls]. split.
      * pose proof (to_int_is_int (get_attribute_value_group node 1)) as Hi.
        rewrite to_size_t_small in Hlen
          by (apply is_int_is_size_t; [lia|exact Hi]).
        intros ->. cbn in Hlen. lia.
      * eapply Forall_impl; [exact Hcalls|].
        intros c Hc. now apply is_group_call_primitive in Hc.
Qed.

(** ** The properties on sample operators *)

(** A premise at a sample operator is closed: it is settled by evaluation. *)
Ltac sample_premise :=
  first [ reflexivity
        | vm_compute; repeat split; (reflexivity || discriminate) ].

(** C1, the claim as the spec states it fails: a single group with a [u8]
    filter and a bias takes the bias-fused leaf, not the fast path the
    spec's decision tree gives. *)
Lemma fast_path_skipped_with_bias :
  get_attribute_value_group
    (sample_node (sample_filters element.u8 8) [sample_bias] None) 1 = 1 /\
  get_element_type (sample_filters element.u8 8) = element.u8 /\
  spec_dispatch 1 true true = FastPathLeaf /\
  executed_leaf
    (quant_conv (sample_node (sample_filters element.u8 8) [sample_bias] None))
  = Some BiasFusedLeaf /\
  executed_leaf
    (quant_conv (sample_node (sample_filters element.u8 8) [sample_bias] None))
  <> Some (spec_dispatch 1 true true).
Proof. repeat split; try reflexivity. vm_compute. discriminate. Qed.

(** C1 as amended, on an operator with one group, a [u8] filter and no
    bias. *)
Lemma dispatch_takes_one_leaf_sample :
  executed_leaf
    (quant_conv (sample_node (sample_filters element.u8 8) [] None))
  = Some (code_dispatch 1 false true) /\
  (1 = 1 -> bias_present [] = false ->
   get_element_type (sample_filters element.u8 8) = element.u8 ->
   quant_conv (sample_node (sample_filters element.u8 8) [] None)
   = Ok [QuantizedLinearConvolution_zp
           (Input sample_data) (Input (sample_filters element.u8 8))
           [1; 1] [1; 1] [0; 0] [0; 0] [1; 1]
           (Input (sample_scale "x_scale"))
           (Input (sample_zero_point "x_zero_point"))
           (Input (sample_scale "w_scale"))
           (Input (sample_zero_point "w_zero_point"))
           (Input (sample_scale "y_scale"))
           (Input (sample_zero_point "y_zero_point"))]).
Proof.
  apply (dispatch_takes_one_leaf
           (sample_node (sample_filters element.u8 8) [] None)
           sample_data (sample_scale "x_scale")
           (sample_zero_point "x_zero_point")
           (sample_filters element.u8 8) (sample_scale "w_scale")
           (sample_zero_point "w_zero_point")
           (sample_scale "y_scale") (sample_zero_point "y_zero_point")
           [] 8 8); sample_premise.
Defined.

(** The rejection on an operator with two groups and a bias. *)
Lemma grouped_bias_not_supported_sample :
  quant_conv (sample_node (sample_filters element.u8 4) [sample_bias] (Some 2))
  = Throw (NotSupported bias_groups_message) /\
  forall (who : string) (msg : list item),
    NotSupported bias_groups_message <> InvalidArgument who msg.
Proof.
  apply (grouped_bias_not_supported
           (sample_node (sample_filters element.u8 4) [sample_bias] (Some 2))
           sample_data (sample_scale "x_scale")
           (sample_zero_point "x_zero_point")
           (sample_filters element.u8 4) (sample_scale "w_scale")
           (sample_zero_point "w_zero_point")
           (sample_scale "y_scale") (sample_zero_point "y_zero_point")
           [sample_bias] 8 8) with (b := sample_bias); sample_premise.
Defined.

(** C3 on an operator with [group = 0]. *)
Lemma zero_group_divides_by_zero_sample :
  quant_conv (sample_node (sample_filters element.u8 8) [] (Some 0))
  = Undefined /\
  forall (who : string) (msg : list item),
    quant_conv (sample_node (sample_filters element.u8 8) [] (Some 0))
    <> Throw (InvalidArgument who msg).
Proof.
  apply (zero_group_divides_by_zero
           (sample_node (sample_filters element.u8 8) [] (Some 0))
           sample_data (sample_scale "x_scale")
           (sample_zero_point "x_zero_point")
           (sample_filters element.u8 8) (sample_scale "w_scale")
           (sample_zero_point "w_zero_point")
           (sample_scale "y_scale") (sample_zero_point "y_zero_point")
           [] 8 8); sample_premise.
Defined.

(** The decomposition on 8 data channels and 8 filters in two groups: the
    ranges are [[0,4)] and [[4,8)] on both axes. *)
Lemma group_slices_partition_channels_sample :
  exists calls : list NgNode,
    quant_conv (sample_node (sample_filters element.u8 4) [] (Some 2))
    = Ok [Concat calls 1] /\
    data_channel_range <$> calls = [Some (0, 4); Some (4, 8)] /\
    filter_channel_range <$> calls = [Some (0, 4); Some (4, 8)] /\
    partitions [(0, 4); (4, 8)] 8 /\
    partitions [(0, 4); (4, 8)] 8 /\
    total_size [(0, 4); (4, 8)] = 8 /\
    total_size [(0, 4); (4, 8)] = 8 /\
    output_channels (Concat calls 1) = Some 8.
Proof.
  apply (group_slices_partition_channels
           (sample_node (sample_filters element.u8 4) [] (Some 2))
           sample_data (sample_scale "x_scale")
           (sample_zero_point "x_zero_point")
           (sample_filters element.u8 4) (sample_scale "w_scale")
           (sample_zero_point "w_zero_point")
           (sample_scale "y_scale") (sample_zero_point "y_zero_point")
           [] 8 8); sample_premise.
Defined.

(** C5, the claim as the spec states it fails: with 8 data channels and 3
    groups the validation error is raised, but its message is a fixed text
    that carries neither 8 nor 3. *)
Lemma indivisible_error_carries_no_value :
  get_shape sample_data !! 1%nat = Some 8 /\
  get_attribute_value_group
    (sample_node (sample_filters element.u8 8) [] (Some 3)) 1 = 3 /\
  8 mod 3 <> 0 /\
  quant_conv (sample_node (sample_filters element.u8 8) [] (Some 3))
  = Throw (InvalidArgument "QLinearConv" [Text data_multiple_message]) /\
  ~ carries [Text data_multiple_message] 8 /\
  ~ carries [Text data_multiple_message] 3.
Proof.
  repeat split; try reflexivity; try discriminate;
    intros [H|[]]; discriminate.
Qed.

(** C5 as amended, on 8 data channels and three groups. *)
Lemma indivisible_channels_invalid_argument_sample :
  exists msg : list item,
    quant_conv (sample_node (sample_filters element.u8 8) [] (Some 3))
    = Throw (InvalidArgument "QLinearConv" msg) /\
    (msg = [Text group_message; Int64 3] /\ (3 < 0 \/ 8 < 3 \/ 8 < 3)
     \/ msg = [Text data_multiple_message] /\
       0 < 3 <= 8 /\ 3 <= 8 /\ 8 mod 3 <> 0
     \/ msg = [Text filters_multiple_message] /\
       0 < 3 <= 8 /\ 3 <= 8 /\ 8 mod 3 = 0 /\ 8 mod 3 <> 0) /\
    (forall v : Z, carries msg v -> v = 3 /\ (3 < 0 \/ 8 < 3 \/ 8 < 3)).
Proof.
  apply (indivisible_channels_invalid_argument
           (sample_node (sample_filters element.u8 8) [] (Some 3))
           sample_data (sample_scale "x_scale")
           (sample_zero_point "x_zero_point")
           (sample_filters element.u8 8) (sample_scale "w_scale")
           (sample_zero_point "w_zero_point")
           (sample_scale "y_scale") (sample_zero_point "y_zero_point")
           [] 8 8); try sample_premise.
  left. vm_compute. discriminate.
Defined.

(** C6 on an operator with two groups. *)
Lemma group_calls_share_scales_sample :
  exists n : NgNode,
    quant_conv (sample_node (sample_filters element.u8 4) [] (Some 2))
    = Ok [n] /\
    primitive_calls n <> [] /\
    Forall (fun c => scales_of c
                     = Some (Input (sample_scale "x_scale"),
                             Input (sample_scale "w_scale"),
                             Input (sample_scale "y_scale")))
           (primitive_calls n) /\
    (2 <= INT_MAX ->
     exists calls : list NgNode,
       n = Concat calls 1 /\ length calls = 2%nat).
Proof.
  apply (group_calls_share_scales
           (sample_node (sample_filters element.u8 4) [] (Some 2))
           sample_data (sample_scale "x_scale")
           (sample_zero_point "x_zero_point")
           (sample_filters element.u8 4) (sample_scale "w_scale")
           (sample_zero_point "w_zero_point")
           (sample_scale "y_scale") (sample_zero_point "y_zero_point")
           [] 8 8); sample_premise.
Defined.

(** C7 on an operator with one group, an [i8] filter and a bias. *)
Lemma single_group_bias_fused_call_sample :
  quant_conv (sample_node (sample_filters element.i8 8) [sample_bias] None)
  = Ok [QuantizedLinearConvolutionBias
          (Input sample_data) (Input (sample_filters element.i8 8))
          (Input sample_bias)
          [1; 1] [1; 1] [0; 0] [0; 0] [1; 1]
          (Input (sample_scale "x_scale"))
          (Input (sample_scale "w_scale"))
          (Input (sample_scale "y_scale"))].
Proof.
  apply (single_group_bias_fused_call
           (sample_node (sample_filters element.i8 8) [sample_bias] None)
           sample_data (sample_scale "x_scale")
           (sample_zero_point "x_zero_point")
           (sample_filters element.i8 8) (sample_scale "w_scale")
           (sample_zero_point "w_zero_point")
           (sample_scale "y_scale") (sample_zero_point "y_zero_point")
           [sample_bias] 8 8); sample_premise.
Defined.

(** C8 on an operator with two groups whose ninth input is the null node. *)
Lemma null_bias_same_as_absent_sample :
  quant_conv (sample_node (sample_filters element.u8 4) [null_node] (Some 2))
  = quant_conv
      (with_inputs
         (sample_node (sample_filters element.u8 4) [null_node] (Some 2))
         (sample_inputs (sample_filters element.u8 4) [])) /\
  (forall msg : string,
     quant_conv
       (sample_node (sample_filters element.u8 4) [null_node] (Some 2))
     <> Throw (NotSupported msg)) /\
  (forall nodes : list NgNode,
     quant_conv
       (sample_node (sample_filters element.u8 4) [null_node] (Some 2))
     = Ok nodes ->
     Forall (fun n => Forall (fun c => is_bias_fused c = false)
                        (n :: primitive_calls n)) nodes).
Proof.
  apply (null_bias_same_as_absent
           (sample_node (sample_filters element.u8 4) [null_node] (Some 2))
           sample_data (sample_scale "x_scale")
           (sample_zero_point "x_zero_point")
           (sample_filters element.u8 4) (sample_scale "w_scale")
           (sample_zero_point "w_zero_point")
           (sample_scale "y_scale") (sample_zero_point "y_zero_point")
           [null_node]) with (b := null_node); sample_premise.
Defined.

(** C9 on an operator with two groups. *)
Lemma conversion_returns_one_node_sample :
  exists n : NgNode,
    returned
      (quant_conv (sample_node (sample_filters element.u8 4) [] (Some 2)))
    = [n] /\
    (2 = 1 -> is_primitive n = true) /\
    (1 < 2 <= INT_MAX ->
     exists calls : list NgNode,
       n = Concat calls 1 /\
       length calls = 2%nat /\
       Forall (fun c => is_primitive c = true) calls).
Proof.
  apply (conversion_returns_one_node
           (sample_node (sample_filters element.u8 4) [] (Some 2))
           (returned
              (quant_conv
                 (sample_node (sample_filters element.u8 4) [] (Some 2)))));
    sample_premise.
Defined.

(** C10 on an operator with two groups and a 3 by 3 kernel. *)
Lemma data_dilations_all_ones_sample :
  Forall (fun n =>
            primitive_calls n <> [] /\
            Forall (fun c => data_dilations_of c = Some [1; 1])
                   (primitive_calls n))
         (returned
            (quant_conv
               (sample_node (sample_filters element.u8 4) [] (Some 2)))).
Proof.
  apply (data_dilations_all_ones
           (sample_node (sample_filters element.u8 4) [] (Some 2))
           (returned
              (quant_conv
                 (sample_node (sample_filters element.u8 4) [] (Some 2)))));
    sample_premise.
Defined.

(** * Further properties of the converter *)

(** ** Inputs that are missing or malformed *)

Lemma bind_ext {A B : Type} (m : result A) (k1 k2 : A -> result B) :
  (forall a, k1 a = k2 a) -> bind m k1 = bind m k2.
Proof. intros H. destruct m as [a| |]; cbn; auto. Qed.

(** X1.  A negative group count is rejected with the bound error, which
    carries the count, before any shape is looked at: the operator needs its
    first seven inputs and nothing else. *)
Theorem negative_group_rejected_before_shapes
    (node : Node) (x0 x1 x2 x3 x4 x5 x6 : TensorRef)
    (rest : list TensorRef) :
  get_ng_inputs node = x0 :: x1 :: x2 :: x3 :: x4 :: x5 :: x6 :: rest ->
  get_attribute_value_group node 1 < 0 ->
  quant_conv node
  = Throw (InvalidArgument (get_description node)
             [Text group_message;
              Int64 (get_attribute_value_group node 1)]).
Proof.
  intros Hin Hneg. unfold quant_conv. rewrite Hin.
  cbn [at_ lookup list_lookup bind].
  now rewrite group_in_bounds_negative.
Qed.

(** X2.  An operator with fewer than seven inputs fails with
    [out_of_range], whatever its attributes and shapes: input 6, the output
    scale, is fetched before anything is validated. *)
Theorem too_few_inputs_out_of_range (node : Node) :
  (length (get_ng_inputs node) < 7)%nat ->
  quant_conv node = Throw out_of_range.
Proof.
  intros H. unfold quant_conv.
  destruct (get_ng_inputs node)
    as [|x0 [|x1 [|x2 [|x3 [|x4 [|x5 [|x6 rest]]]]]]];
    try reflexivity.
  cbn [length] in H. lia.
Qed.

(** X3.  With a group count that is not negative, data whose shape has no
    axis 1 fails with [out_of_range]; so do filters with an empty shape,
    once the group count is within the data channels. *)
Theorem missing_channel_axis_out_of_range
    (node : Node) (x0 x1 x2 x3 x4 x5 x6 : TensorRef)
    (rest : list TensorRef) :
  get_ng_inputs node = x0 :: x1 :: x2 :: x3 :: x4 :: x5 :: x6 :: rest ->
  0 <= get_attribute_value_group node 1 ->
  get_shape x0 !! 1%nat = None \/
  (exists dc, get_shape x0 !! 1%nat = Some dc /\
              to_size_t (get_attribute_value_group node 1) <= dc /\
              get_shape x3 = []) ->
  quant_conv node = Throw out_of_range.
Proof.
  intros Hin Hg Hshape. unfold quant_conv. rewrite Hin.
  cbn [at_ lookup list_lookup bind]. unfold group_in_bounds, at_.
  destruct (Z.leb_spec 0 (get_attribute_value_group node 1)); [|lia].
  destruct Hshape as [Hnone|(dc & Hdc & Hle & Hf)].
  - rewrite Hnone. reflexivity.
  - rewrite Hdc. cbn [bind].
    destruct (Z.leb_spec (to_size_t (get_attribute_value_group node 1)) dc);
      [|lia].
    rewrite Hf. reflexivity.
Qed.

(** ** Inputs the converter does not read *)

(** X4.  Off the fast path (a bias is present, or the filter is not [u8], or
    the group count is not 1) the three zero-point inputs are never read:
    replacing them by any other nodes leaves the outcome of the conversion
    unchanged, errors included. *)
Theorem zero_points_unused_off_fast_path
    (node : Node) (x0 x1 x2 x3 x4 x5 x6 x7 z2 z5 z7 : TensorRef)
    (rest : list TensorRef) :
  get_ng_inputs node
  = x0 :: x1 :: x2 :: x3 :: x4 :: x5 :: x6 :: x7 :: rest ->
  bias_present rest = true \/
  get_element_type x3 <> element.u8 \/
  get_attribute_value_group node 1 <> 1 ->
  quant_conv node
  = quant_conv
      (with_inputs node
         (x0 :: x1 :: z2 :: x3 :: x4 :: z5 :: x6 :: z7 :: rest)).
Proof.
  intros Hin Hoff.
  unfold quant_conv, get_attribute_value_group. rewrite Hin.
  cbn [with_inputs get_ng_inputs attribute_group get_description
       convpool_strides convpool_dilations convpool_kernel_shape
       convpool_pads at_ lookup list_lookup bind].
  rewrite !bias_given_inputs.
  destruct (bias_present rest) eqn:Hb; [reflexivity|].
  assert (Hcond : element.eqb (get_element_type x3) element.u8 &&
                  (default 1 (attribute_group node) =? 1) = false).
  { destruct Hoff as [Hoff|[Hoff|Hoff]]; [discriminate| |].
    - destruct (get_element_type x3); try reflexivity. congruence.
    - apply andb_false_iff. right. apply Z.eqb_neq. exact Hoff. }
  rewrite Hcond. reflexivity.
Qed.

(** X5.  The bias is recognised only when there are exactly nine inputs: an
    operator with ten or more is converted like the operator with its first
    eight inputs, whatever its ninth input is. *)
Theorem surplus_inputs_ignored
    (node : Node) (x0 x1 x2 x3 x4 x5 x6 x7 : TensorRef)
    (rest : list TensorRef) :
  get_ng_inputs node
  = x0 :: x1 :: x2 :: x3 :: x4 :: x5 :: x6 :: x7 :: rest ->
  (2 <= length rest)%nat ->
  quant_conv node
  = quant_conv (with_inputs node [x0; x1; x2; x3; x4; x5; x6; x7]).
Proof.
  intros Hin Hlen.
  assert (Hnobias : bias_given (get_ng_inputs node) = Ok false).
  { rewrite Hin, bias_given_inputs.
    destruct rest as [|b [|c rest']]; cbn [length] in Hlen;
      [lia|lia|reflexivity]. }
  unfold quant_conv at 1. rewrite Hnobias, Hin. reflexivity.
Qed.

(** ** Validation, with the inputs given by position *)

Lemma quant_conv_validated_at (node : Node)
    (data filters data_scale filters_scale output_scale : TensorRef)
    (dc fc : Z) :
  get_ng_inputs node !! 0%nat = Some data ->
  get_ng_inputs node !! 3%nat = Some filters ->
  get_ng_inputs node !! 1%nat = Some data_scale ->
  get_ng_inputs node !! 4%nat = Some filters_scale ->
  get_ng_inputs node !! 6%nat = Some output_scale ->
  get_shape data !! 1%nat = Some dc ->
  get_shape filters !! 0%nat = Some fc ->
  is_int64 (get_attribute_value_group node 1) ->
  0 < get_attribute_value_group node 1 ->
  get_attribute_value_group node 1 <= dc ->
  get_attribute_value_group node 1 <= fc ->
  dc mod get_attribute_value_group node 1 = 0 ->
  fc mod get_attribute_value_group node 1 = 0 ->
  quant_conv node
  = dispatch node data filters data_scale filters_scale output_scale
      (get_attribute_value_group node 1).
Proof.
  intros H0 H3 H1 H4 H6 Hd Hf Hi Hpos Hgd Hgf Hdm Hfm.
  unfold quant_conv, at_. rewrite H0, H3, H1, H4, H6. cbn [bind].
  rewrite (group_in_bounds_nonneg _ dc fc) by (assumption || lia).
  cbn [bind].
  replace ((get_attribute_value_group node 1 <=? dc) &&
           (get_attribute_value_group node 1 <=? fc)) with true
    by (symmetry; apply andb_true_iff; rewrite !Z.leb_le; lia).
  rewrite Hd, Hf. cbn [ASSERT_VALID_ARGUMENT bind].
  rewrite to_size_t_small by (apply is_int64_nonneg_size_t; [lia|assumption]).
  unfold size_t_rem.
  destruct (Z.eqb_spec (get_attribute_value_group node 1) 0) as [?|_]; [lia|].
  cbn [bind]. rewrite Hdm, Hfm. reflexivity.
Qed.

(** X6.  The arity is not checked: an operator with exactly seven inputs
    (no output zero point) that passes validation with one group converts to
    the plain call when its filter is not [u8], and fails with
    [out_of_range] when it is, because only the fast path reads input 7. *)
Theorem seven_inputs_fail_only_on_fast_path
    (node : Node) (x0 x1 x2 x3 x4 x5 x6 : TensorRef) (dc fc : Z) :
  get_ng_inputs node = [x0; x1; x2; x3; x4; x5; x6] ->
  get_shape x0 !! 1%nat = Some dc ->
  get_shape x3 !! 0%nat = Some fc ->
  get_attribute_value_group node 1 = 1 ->
  1 <= dc -> 1 <= fc ->
  quant_conv node
  = if element.eqb (get_element_type x3) element.u8
    then Throw out_of_range
    else Ok [QuantizedLinearConvolution
               (Input x0) (Input x3)
               (convpool_strides node) (convpool_dilations node)
               (fst (convpool_pads node)) (snd (convpool_pads node))
               (replicate (length (convpool_kernel_shape node)) 1)
               (Input x1) (Input x4) (Input x6)].
Proof.
  intros Hin Hd Hf Hg Hdc Hfc.
  rewrite (quant_conv_validated_at node x0 x3 x1 x4 x6 dc fc);
    try (rewrite Hin; reflexivity); try assumption;
    try (rewrite Hg; first [lia | apply Z.mod_1_r | unfold is_int64; lia]).
  unfold dispatch. rewrite Hin, Hg. cbn [bias_given length Nat.eqb bind].
  destruct (element.eqb (get_element_type x3) element.u8); reflexivity.
Qed.

(** ** The group count beyond the range of [int] *)

Lemma total_size_floor_telescopes (size g : Z) (n : nat) :
  forall m : Z,
    total_size (floor_range size g <$> seqZ m (Z.of_nat n))
    = Z.of_nat n * (size / g).
Proof.
  induction n as [|n IH]; intros m.
  - reflexivity.
  - rewrite seqZ_cons by lia.
    replace (Z.pred (Z.of_nat (S n))) with (Z.of_nat n) by lia.
    rewrite fmap_cons. cbn [total_size]. rewrite IH.
    unfold range_size, floor_range. cbn [fst snd]. lia.
Qed.

Lemma total_size_floor_ranges (size g : Z) :
  0 < g -> total_size (floor_ranges size g) = size - size mod g.
Proof.
  intros Hg. unfold floor_ranges.
  rewrite <- (Z2Nat.id g) at 2 by lia.
  rewrite total_size_floor_telescopes, Z2Nat.id by lia.
  pose proof (Z.div_mod size g ltac:(lia)). lia.
Qed.

(** The decomposition for any [int] count above one: the slices have the
    rounded-down width. *)
Lemma make_ng_quant_conv_rounds_down
    (data filters : TensorRef)
    (strides filter_dilations : Strides)
    (padding_below padding_above : CoordinateDiff)
    (data_dilations : Strides) (op_scale : OpScale) (dc fc g : Z) :
  get_shape data !! 1%nat = Some dc ->
  get_shape filters !! 0%nat = Some fc ->
  is_size_t dc -> is_size_t fc ->
  is_int g -> 1 < g ->
  make_ng_quant_conv data filters strides filter_dilations padding_below
    padding_above data_dilations g op_scale None
  = Ok (Concat
          (floor_group_node data filters strides filter_dilations
             padding_below padding_above data_dilations op_scale dc fc g
           <$> seqZ 0 g)
          1).
Proof.
  intros Hd Hf Hdc Hfc Hi Hg.
  rewrite (make_ng_quant_conv_loop data filters _ _ _ _ _ _ dc fc)
    by assumption.
  assert (Hsz : is_size_t g) by (apply is_int_is_size_t; [lia|assumption]).
  rewrite (to_size_t_small g Hsz).
  rewrite counters_seqZ; [|lia|].
  2:{ unfold is_int, INT_MAX in Hi. unfold SIZE_WIDTH. lia. }
  rewrite Z2Nat.id by lia.
  do 2 f_equal. apply Forall_fmap_ext_1, Forall_seqZ. intros k Hk.
  unfold is_size_t in *.
  assert (Hk1 : size_t_add k 1 = k + 1).
  { apply size_t_add_small. unfold is_size_t. lia. }
  pose proof (group_bound dc g k ltac:(lia) ltac:(lia) ltac:(lia)).
  pose proof (group_bound dc g (k + 1) ltac:(lia) ltac:(lia) ltac:(lia)).
  pose proof (group_bound fc g k ltac:(lia) ltac:(lia) ltac:(lia)).
  pose proof (group_bound fc g (k + 1) ltac:(lia) ltac:(lia) ltac:(lia)).
  unfold group_node, floor_group_node, slice_along, floor_range.
  cbn [fst snd]. rewrite Hk1.
  rewrite !size_t_mul_small by (unfold is_size_t; lia).
  reflexivity.
Qed.

Section FloorCalls.

Variables (data filters : TensorRef).
Variables (strides filter_dilations : Strides).
Variables (padding_below padding_above : CoordinateDiff).
Variable (data_dilations : Strides).
Variable (op_scale : OpScale).
Variables (dc fc g : Z).
Hypothesis data_channels : get_shape data !! 1%nat = Some dc.
Hypothesis filters_channels : get_shape filters !! 0%nat = Some fc.

Local Abbreviation floor_call :=
  (floor_group_node data filters strides filter_dilations padding_below
     padding_above data_dilations op_scale dc fc g).

Lemma data_channel_range_floor_call (i : Z) :
  data_channel_range (floor_call i) = Some (floor_range dc g i).
Proof.
  unfold data_channel_range, floor_group_node. cbn [operands_of].
  apply slice_range_slice_along. now apply lookup_lt_Some in data_channels.
Qed.

Lemma filter_channel_range_floor_call (i : Z) :
  filter_channel_range (floor_call i) = Some (floor_range fc g i).
Proof.
  unfold filter_channel_range, floor_group_node. cbn [operands_of].
  apply slice_range_slice_along. now apply lookup_lt_Some in filters_channels.
Qed.

Lemma conv_output_channels_floor_call (i : Z) :
  conv_output_channels (floor_call i)
  = Some (range_size (floor_range fc g i)).
Proof.
  pose proof (filter_channel_range_floor_call i) as H.
  unfold filter_channel_range in H.
  unfold conv_output_channels, floor_group_node in *.
  cbn [operands_of] in *.
  unfold extent, slice_along in *. rewrite H.
  now destruct (floor_range fc g i).
Qed.

Lemma sum_channels_floor_calls (l : list Z) :
  sum_channels (floor_call <$> l)
  = Some (total_size (floor_range fc g <$> l)).
Proof.
  induction l as [|i l IH]; [reflexivity|].
  rewrite !fmap_cons. cbn [sum_channels total_size].
  now rewrite conv_output_channels_floor_call, IH.
Qed.

End FloorCalls.

(** C2, what the code does.  The group count is validated as the [int64_t]
    attribute but handed to the [int] parameter of [make_ng_quant_conv].
    With a bias present, a validated count above one that narrows to one or
    below is not rejected: the conversion returns the single bias-fused
    call on the unsliced nodes, and no [NotSupported]. *)
Theorem grouped_bias_accepted_after_narrowing
    (node : Node) (x0 x1 x2 x3 x4 x5 x6 x7 b : TensorRef) (dc fc : Z) :
  get_ng_inputs node = [x0; x1; x2; x3; x4; x5; x6; x7; b] ->
  is_null b = false ->
  get_shape x0 !! 1%nat = Some dc ->
  get_shape x3 !! 0%nat = Some fc ->
  is_int64 (get_attribute_value_group node 1) ->
  1 < get_attribute_value_group node 1 ->
  get_attribute_value_group node 1 <= dc ->
  get_attribute_value_group node 1 <= fc ->
  dc mod get_attribute_value_group node 1 = 0 ->
  fc mod get_attribute_value_group node 1 = 0 ->
  to_int (get_attribute_value_group node 1) <= 1 ->
  quant_conv node
  = Ok [QuantizedLinearConvolutionBias
          (Input x0) (Input x3) (Input b)
          (convpool_strides node) (convpool_dilations node)
          (fst (convpool_pads node)) (snd (convpool_pads node))
          (replicate (length (convpool_kernel_shape node)) 1)
          (Input x1) (Input x4) (Input x6)] /\
  forall msg : string, quant_conv node <> Throw (NotSupported msg).
Proof.
  intros Hin Hnull Hd Hf Hi Hg Hgd Hgf Hdm Hfm Hnarrow.
  assert (Hrun : quant_conv node
                 = Ok [QuantizedLinearConvolutionBias
                         (Input x0) (Input x3) (Input b)
                         (convpool_strides node) (convpool_dilations node)
                         (fst (convpool_pads node))
                         (snd (convpool_pads node))
                         (replicate (length (convpool_kernel_shape node)) 1)
                         (Input x1) (Input x4) (Input x6)]).
  { rewrite (quant_conv_validated_at node x0 x3 x1 x4 x6 dc fc);
      try (rewrite Hin; reflexivity); try assumption; try lia.
    unfold dispatch. rewrite Hin.
    cbn [bias_given length Nat.eqb at_ lookup list_lookup bind].
    rewrite Hnull. cbn [negb].
    rewrite make_ng_quant_conv_single by assumption. reflexivity. }
  split; [exact Hrun|]. intros msg. rewrite Hrun. discriminate.
Qed.

(** C4, what the code does.  Without a bias, a validated group count above
    one is decomposed by its value as narrowed to the [int] parameter of
    [make_ng_quant_conv].  When the narrowed count [g'] is above one there
    are [g'] calls, not [g], whose slices have the rounded-down width
    [size / g']: the concatenation has [fc - fc mod g'] channels, fewer than
    the filter's [fc] as soon as [g'] does not divide it.  When the narrowed
    count is one or below there is no decomposition at all, but one plain
    call on the unsliced nodes. *)
Theorem narrowed_group_count_breaks_partition
    (node : Node) (x0 x1 x2 x3 x4 x5 x6 x7 : TensorRef)
    (rest : list TensorRef) (dc fc : Z) :
  get_ng_inputs node
  = x0 :: x1 :: x2 :: x3 :: x4 :: x5 :: x6 :: x7 :: rest ->
  bias_present rest = false ->
  get_shape x0 !! 1%nat = Some dc ->
  get_shape x3 !! 0%nat = Some fc ->
  is_size_t dc -> is_size_t fc ->
  is_int64 (get_attribute_value_group node 1) ->
  1 < get_attribute_value_group node 1 ->
  get_attribute_value_group node 1 <= dc ->
  get_attribute_value_group node 1 <= fc ->
  dc mod get_attribute_value_group node 1 = 0 ->
  fc mod get_attribute_value_group node 1 = 0 ->
  (1 < to_int (get_attribute_value_group node 1) ->
   exists calls : list NgNode,
     quant_conv node = Ok [Concat calls 1] /\
     length calls = Z.to_nat (to_int (get_attribute_value_group node 1)) /\
     data_channel_range <$> calls
     = Some <$> floor_ranges dc (to_int (get_attribute_value_group node 1)) /\
     filter_channel_range <$> calls
     = Some <$> floor_ranges fc (to_int (get_attribute_value_group node 1)) /\
     output_channels (Concat calls 1)
     = Some (fc - fc mod to_int (get_attribute_value_group node 1))) /\
  (to_int (get_attribute_value_group node 1) <= 1 ->
   quant_conv node
   = Ok [QuantizedLinearConvolution
           (Input x0) (Input x3)
           (convpool_strides node) (convpool_dilations node)
           (fst (convpool_pads node)) (snd (convpool_pads node))
           (replicate (length (convpool_kernel_shape node)) 1)
           (Input x1) (Input x4) (Input x6)]).
Proof.
  intros Hin Hb Hd Hf Hdc Hfc Hi Hg Hgd Hgf Hdm Hfm.
  rewrite (quant_conv_validated_at node x0 x3 x1 x4 x6 dc fc);
    try (rewrite Hin; reflexivity); try assumption; try lia.
  unfold dispatch. rewrite Hin, bias_given_inputs, Hb. cbn [bind].
  replace (get_attribute_value_group node 1 =? 1) with false
    by (symmetry; apply Z.eqb_neq; lia).
  rewrite andb_false_r.
  set (g' := to_int (get_attribute_value_group node 1)).
  assert (Hint : is_int g') by apply to_int_is_int.
  split.
  - intros Hgt.
    rewrite (make_ng_quant_conv_rounds_down x0 x3 _ _ _ _ _ _ dc fc)
      by assumption.
    cbn [bind]. eexists. split; [reflexivity|].
    split; [now rewrite length_fmap, length_seqZ|].
    split; [|split].
    + unfold floor_ranges. rewrite <- !list_fmap_compose.
      apply list_fmap_ext. intros _ i _. unfold compose.
      eapply data_channel_range_floor_call; eassumption.
    + unfold floor_ranges. rewrite <- !list_fmap_compose.
      apply list_fmap_ext. intros _ i _. unfold compose.
      eapply filter_channel_range_floor_call; eassumption.
    + cbn [output_channels].
      erewrite sum_channels_floor_calls by eassumption.
      f_equal. apply total_size_floor_ranges. lia.
  - intros Hle. rewrite make_ng_quant_conv_single by assumption.
    reflexivity.
Qed.

(** X7.  With a bias present, what a validated call does is decided by the
    group count as narrowed to the [int] parameter of [make_ng_quant_conv]:
    the call is rejected as unsupported exactly when the narrowed count is
    above one, and otherwise emits the single bias-fused call, also for an
    attribute value above one that narrows to one or below. *)
Theorem narrowed_group_count_decides_bias_outcome
    (node : Node) (x0 x1 x2 x3 x4 x5 x6 x7 b : TensorRef) (dc fc : Z) :
  get_ng_inputs node = [x0; x1; x2; x3; x4; x5; x6; x7; b] ->
  is_null b = false ->
  get_shape x0 !! 1%nat = Some dc ->
  get_shape x3 !! 0%nat = Some fc ->
  is_int64 (get_attribute_value_group node 1) ->
  0 < get_attribute_value_group node 1 ->
  get_attribute_value_group node 1 <= dc ->
  get_attribute_value_group node 1 <= fc ->
  dc mod get_attribute_value_group node 1 = 0 ->
  fc mod get_attribute_value_group node 1 = 0 ->
  quant_conv node
  = if 1 <? to_int (get_attribute_value_group node 1)
    then Throw (NotSupported bias_groups_message)
    else Ok [QuantizedLinearConvolutionBias
               (Input x0) (Input x3) (Input b)
               (convpool_strides node) (convpool_dilations node)
               (fst (convpool_pads node)) (snd (convpool_pads node))
               (replicate (length (convpool_kernel_shape node)) 1)
               (Input x1) (Input x4) (Input x6)].
Proof.
  intros Hin Hnull Hd Hf Hi Hpos Hgd Hgf Hdm Hfm.
  rewrite (quant_conv_validated_at node x0 x3 x1 x4 x6 dc fc);
    try (rewrite Hin; reflexivity); try assumption.
  unfold dispatch. rewrite Hin.
  cbn [bias_given length Nat.eqb at_ lookup list_lookup bind].
  rewrite Hnull. cbn [negb].
  destruct (Z.ltb_spec 1 (to_int (get_attribute_value_group node 1)))
    as [Hgt|Hle].
  - rewrite (make_ng_quant_conv_rejects x0 x3 _ _ _ _ _ _ dc fc);
      [reflexivity|assumption|assumption|assumption|apply to_int_is_int].
  - rewrite make_ng_quant_conv_single by assumption. reflexivity.
Qed.

(** ** What every emitted call receives *)

Lemma is_group_call_arguments
    (data filters : TensorRef)
    (strides filter_dilations : Strides)
    (padding_below padding_above : CoordinateDiff)
    (data_dilations : Strides) (op_scale : OpScale) (c : NgNode) :
  is_group_call data filters strides filter_dilations padding_below
    padding_above data_dilations op_scale c ->
  scales_of c
  = Some (Input (op_data_scale op_scale),
          Input (op_filter_scale op_scale),
          Input (op_output_scale op_scale)) /\
  geometry_of c
  = Some (strides, filter_dilations, padding_below, padding_above).
Proof. intros (dgs & fgs & dl & du & fl & fu & k & ->). now cbn. Qed.

(** X8.  In a conversion that succeeds, on whichever path, every primitive
    call receives the operator's strides, filter dilations and paddings as
    the [convpool] accessors gave them, and as scales the operator's inputs
    1, 4 and 6. *)
Theorem calls_keep_geometry_and_scales (node : Node) (nodes : list NgNode) :
  quant_conv node = Ok nodes ->
  exists data_scale filters_scale output_scale : TensorRef,
    get_ng_inputs node !! 1%nat = Some data_scale /\
    get_ng_inputs node !! 4%nat = Some filters_scale /\
    get_ng_inputs node !! 6%nat = Some output_scale /\
    Forall (fun n =>
              Forall (fun c =>
                        scales_of c
                        = Some (Input data_scale, Input filters_scale,
                                Input output_scale) /\
                        geometry_of c
                        = Some (convpool_strides node,
                                convpool_dilations node,
                                fst (convpool_pads node),
                                snd (convpool_pads node)))
                     (primitive_calls n))
           nodes.
Proof.
  intros H.
  apply quant_conv_Ok_inv in H
    as (d & f & ds & fs & os & n & _ & _ & Hds & Hfs & Hos & -> & Hn).
  exists ds, fs, os. do 3 (split; [assumption|]).
  constructor; [|constructor].
  destruct Hn as [(z1 & z2 & z3 & _ & _ & ->)|(bias & _ & Hmk)].
  - repeat constructor.
  - apply make_ng_quant_conv_Ok_inv in Hmk
      as [[_ ->]|(_ & calls & -> & _ & Hcalls)].
    + destruct bias; repeat constructor.
    + cbn [primitive_calls].
      eapply Forall_impl; [exact Hcalls|].
      intros c Hc. now apply is_group_call_arguments in Hc.
Qed.

(** X9.  In the decomposition every per-group call slices the operator's
    own data and filter nodes, and only along the channel axis: along every
    other axis the data slice runs from 0 to the full extent, and so does
    the filter slice along every axis but 0. *)
Theorem group_slices_keep_other_axes
    (node : Node) (x0 x1 x2 x3 x4 x5 x6 x7 : TensorRef)
    (rest : list TensorRef) (dc fc : Z) :
  get_ng_inputs node
  = x0 :: x1 :: x2 :: x3 :: x4 :: x5 :: x6 :: x7 :: rest ->
  get_shape x0 !! 1%nat = Some dc ->
  get_shape x3 !! 0%nat = Some fc ->
  bias_present rest = false ->
  is_size_t dc -> is_size_t fc ->
  1 < get_attribute_value_group node 1 <= INT_MAX ->
  get_attribute_value_group node 1 <= dc ->
  get_attribute_value_group node 1 <= fc ->
  dc mod get_attribute_value_group node 1 = 0 ->
  fc mod get_attribute_value_group node 1 = 0 ->
  exists calls : list NgNode,
    quant_conv node = Ok [Concat calls 1] /\
    Forall (fun c =>
              exists dl du fl fu : list Z,
                operands_of c
                = Some (Slice (Input x0) dl du, Slice (Input x3) fl fu) /\
                (forall (axis : nat) (d : Z),
                   axis <> 1%nat -> get_shape x0 !! axis = Some d ->
                   dl !! axis = Some 0 /\ du !! axis = Some d) /\
                (forall (axis : nat) (d : Z),
                   axis <> 0%nat -> get_shape x3 !! axis = Some d ->
                   fl !! axis = Some 0 /\ fu !! axis = Some d))
           calls.
Proof.
  intros Hin Hd Hf Hb Hdc Hfc Hg Hgd Hgf Hdm Hfm.
  eexists. split.
  { eapply quant_conv_decomposes; try eassumption; try lia.
    apply small_is_int64. lia. }
  apply Forall_fmap, Forall_forall. intros i _. unfold compose.
  unfold spec_group_node, slice_along. cbn [operands_of].
  do 4 eexists. split; [reflexivity|]. split.
  - intros axis d Hne Hax.
    rewrite !list_lookup_insert_ne by congruence.
    split; [|exact Hax].
    apply lookup_replicate_2. now apply lookup_lt_Some in Hax.
  - intros axis d Hne Hax.
    rewrite !list_lookup_insert_ne by congruence.
    split; [|exact Hax].
    apply lookup_replicate_2. now apply lookup_lt_Some in Hax.
Qed.

(** ** What an outcome tells about the operator *)

Lemma ASSERT_VALID_ARGUMENT_Ok_inv (node : Node) (cond : bool)
    (msg : list item) (u : unit) :
  ASSERT_VALID_ARGUMENT node cond msg = Ok u -> cond = true.
Proof. unfold ASSERT_VALID_ARGUMENT. now destruct cond. Qed.

Lemma size_t_rem_Ok_inv (a b r : Z) :
  size_t_rem a b = Ok r -> b <> 0 /\ r = a mod b.
Proof.
  unfold size_t_rem. destruct (Z.eqb_spec b 0); [discriminate|].
  intros H. inversion H. auto.
Qed.

Lemma group_in_bounds_true_inv (groups : Z) (data filters : TensorRef) :
  group_in_bounds groups data filters = Ok true ->
  0 <= groups /\
  exists dc fc,
    get_shape data !! 1%nat = Some dc /\
    get_shape filters !! 0%nat = Some fc /\
    to_size_t groups <= dc /\ to_size_t groups <= fc.
Proof.
  unfold group_in_bounds, at_. intros H.
  destruct (Z.leb_spec 0 groups); [|discriminate].
  split; [assumption|].
  destruct (get_shape data !! 1%nat) as [dc|]; [|discriminate].
  cbn [bind] in H.
  destruct (Z.leb_spec (to_size_t groups) dc); [|discriminate].
  destruct (get_shape filters !! 0%nat) as [fc|]; [|discriminate].
  cbn [bind] in H. inversion H as [Hle]. apply Z.leb_le in Hle.
  exists dc, fc. auto.
Qed.

(** X10.  A conversion succeeds only on an operator that meets every group
    invariant: the data has a channel axis and the filters an axis 0, and
    the group count is positive, within both channel counts, and divides
    both. *)
Theorem success_implies_group_invariants (node : Node)
    (nodes : list NgNode) :
  is_int64 (get_attribute_value_group node 1) ->
  quant_conv node = Ok nodes ->
  exists (data filters : TensorRef) (dc fc : Z),
    get_ng_inputs node !! 0%nat = Some data /\
    get_ng_inputs node !! 3%nat = Some filters /\
    get_shape data !! 1%nat = Some dc /\
    get_shape filters !! 0%nat = Some fc /\
    0 < get_attribute_value_group node 1 <= dc /\
    get_attribute_value_group node 1 <= fc /\
    dc mod get_attribute_value_group node 1 = 0 /\
    fc mod get_attribute_value_group node 1 = 0.
Proof.
  intros Hi H. unfold quant_conv in H.
  apply bind_Ok_inv in H as (data & Hdata & H).
  apply bind_Ok_inv in H as (filters & Hfilters & H).
  apply bind_Ok_inv in H as (data_scale & _ & H).
  apply bind_Ok_inv in H as (filters_scale & _ & H).
  apply bind_Ok_inv in H as (output_scale & _ & H).
  apply bind_Ok_inv in H as (in_bounds & Hib & H).
  apply bind_Ok_inv in H as (u1 & Ha1 & H).
  apply bind_Ok_inv in H as (n_data_channels & Hndc & H).
  apply bind_Ok_inv in H as (n_filters_channels & Hnfc & H).
  apply bind_Ok_inv in H as (r_data & Hrd & H).
  apply bind_Ok_inv in H as (u2 & Ha2 & H).
  apply bind_Ok_inv in H as (r_filters & Hrf & H).
  apply bind_Ok_inv in H as (u3 & Ha3 & _).
  apply at_Ok_inv in Hdata, Hfilters, Hndc, Hnfc.
  apply ASSERT_VALID_ARGUMENT_Ok_inv in Ha1, Ha2, Ha3. subst in_bounds.
  apply group_in_bounds_true_inv in Hib
    as (Hnn & dc & fc & Hdc & Hfc & Hgd & Hgf).
  rewrite Hdc in Hndc. rewrite Hfc in Hnfc.
  inversion Hndc; inversion Hnfc; subst n_data_channels n_filters_channels.
  rewrite to_size_t_small in *
    by (apply is_int64_nonneg_size_t; assumption).
  apply size_t_rem_Ok_inv in Hrd as [Hnz ->], Hrf as [_ ->].
  apply Z.eqb_eq in Ha2, Ha3.
  exists data, filters, dc, fc.
  repeat split; (assumption || lia).
Qed.











(** ** make_ng_quant_conv on a group count that does not divide *)

(** X13.  [make_ng_quant_conv] itself does not ask that the group count
    divide the channel counts.  For any [int] count [g] above one and no
    bias it emits [g] calls whose slices have the rounded-down width
    [size / g] and follow one another from 0: they keep the first
    [size - size mod g] channels of the data and of the filters and leave
    the last [size mod g] out. *)
Theorem helper_slices_round_down
    (data filters : TensorRef)
    (strides filter_dilations : Strides)
    (padding_below padding_above : CoordinateDiff)
    (data_dilations : Strides) (op_scale : OpScale) (dc fc g : Z) :
  get_shape data !! 1%nat = Some dc ->
  get_shape filters !! 0%nat = Some fc ->
  is_size_t dc -> is_size_t fc ->
  is_int g -> 1 < g ->
  exists calls : list NgNode,
    make_ng_quant_conv data filters strides filter_dilations padding_below
      padding_above data_dilations g op_scale None
    = Ok (Concat calls 1) /\
    data_channel_range <$> calls = Some <$> floor_ranges dc g /\
    filter_channel_range <$> calls = Some <$> floor_ranges fc g /\
    total_size (floor_ranges dc g) = dc - dc mod g /\
    total_size (floor_ranges fc g) = fc - fc mod g.
Proof.
  intros Hd Hf Hdc Hfc Hi Hg.
  eexists. split; [eapply make_ng_quant_conv_loop; eassumption|].
  assert (Hsz : is_size_t g) by (apply is_int_is_size_t; [lia|assumption]).
  rewrite (to_size_t_small g Hsz).
  rewrite counters_seqZ; [|lia|].
  2:{ unfold is_int, INT_MAX in Hi. unfold SIZE_WIDTH. lia. }
  rewrite Z2Nat.id by lia.
  assert (Hd1 : (1 < length (get_shape data))%nat)
    by now apply lookup_lt_Some in Hd.
  assert (Hf0 : (0 < length (get_shape filters))%nat)
    by now apply lookup_lt_Some in Hf.
  unfold is_size_t in *.
  assert (Hwidth : forall size k, 0 <= size < SIZE_WIDTH -> 0 <= k < g ->
            size_t_mul k (size / g) = k * (size / g) /\
            size_t_mul (size_t_add k 1) (size / g) = (k + 1) * (size / g)).
  { intros size k Hsize Hk.
    rewrite size_t_add_small by (unfold is_size_t; lia).
    pose proof (group_bound size g k ltac:(lia) ltac:(lia) ltac:(lia)).
    pose proof (group_bound size g (k + 1) ltac:(lia) ltac:(lia) ltac:(lia)).
    rewrite !size_t_mul_small by (unfold is_size_t; lia). auto. }
  split; [|split; [|split]].
  - unfold floor_ranges. rewrite <- !list_fmap_compose.
    apply Forall_fmap_ext_1, Forall_seqZ. intros k Hk. unfold compose.
    destruct (Hwidth dc k Hdc ltac:(lia)) as [Hlo Hhi].
    unfold data_channel_range, group_node. cbn [operands_of slice_range].
    rewrite !list_lookup_insert_eq by (rewrite ?length_replicate; exact Hd1).
    now rewrite Hlo, Hhi.
  - unfold floor_ranges. rewrite <- !list_fmap_compose.
    apply Forall_fmap_ext_1, Forall_seqZ. intros k Hk. unfold compose.
    destruct (Hwidth fc k Hfc ltac:(lia)) as [Hlo Hhi].
    unfold filter_channel_range, group_node. cbn [operands_of slice_range].
    rewrite !list_lookup_insert_eq by (rewrite ?length_replicate; exact Hf0).
    now rewrite Hlo, Hhi.
  - apply total_size_floor_ranges. lia.
  - apply total_size_floor_ranges. lia.
Qed.

(** ** The further properties on sample operators *)

(** X1 on data without a channel axis and [group = -1]. *)
Lemma negative_group_rejected_before_shapes_sample :
  quant_conv
    (sample_node_over sample_flat_data (sample_filters element.u8 8)
       [sample_zero_point "y_zero_point"] (Some (-1)))
  = Throw (InvalidArgument "QLinearConv" [Text group_message; Int64 (-1)]).
Proof.
  apply (negative_group_rejected_before_shapes
           (sample_node_over sample_flat_data (sample_filters element.u8 8)
              [sample_zero_point "y_zero_point"] (Some (-1)))
           sample_flat_data (sample_scale "x_scale")
           (sample_zero_point "x_zero_point")
           (sample_filters element.u8 8) (sample_scale "w_scale")
           (sample_zero_point "w_zero_point") (sample_scale "y_scale")
           [sample_zero_point "y_zero_point"]); sample_premise.
Defined.

(** X2 on an operator with the data and its scale only. *)
Lemma too_few_inputs_out_of_range_sample :
  quant_conv
    (mkNode "QLinearConv" [sample_data; sample_scale "x_scale"] None
            [1; 1] [1; 1] [3; 3] ([0; 0], [0; 0]))
  = Throw out_of_range.
Proof.
  apply (too_few_inputs_out_of_range
           (mkNode "QLinearConv" [sample_data; sample_scale "x_scale"] None
                   [1; 1] [1; 1] [3; 3] ([0; 0], [0; 0]))).
  cbn. lia.
Defined.

(** X3 on data of shape [[8]] with one group. *)
Lemma missing_channel_axis_out_of_range_sample :
  quant_conv
    (sample_node_over sample_flat_data (sample_filters element.u8 8)
       [sample_zero_point "y_zero_point"] None)
  = Throw out_of_range.
Proof.
  apply (missing_channel_axis_out_of_range
           (sample_node_over sample_flat_data (sample_filters element.u8 8)
              [sample_zero_point "y_zero_point"] None)
           sample_flat_data (sample_scale "x_scale")
           (sample_zero_point "x_zero_point")
           (sample_filters element.u8 8) (sample_scale "w_scale")
           (sample_zero_point "w_zero_point") (sample_scale "y_scale")
           [sample_zero_point "y_zero_point"]);
    [reflexivity|vm_compute; discriminate|left; reflexivity].
Defined.

(** X4 on an [i8] filter with one group: null nodes in place of the zero
    points change nothing. *)
Lemma zero_points_unused_off_fast_path_sample :
  quant_conv (sample_node (sample_filters element.i8 8) [] None)
  = quant_conv
      (with_inputs (sample_node (sample_filters element.i8 8) [] None)
         [sample_data; sample_scale "x_scale"; null_node;
          sample_filters element.i8 8; sample_scale "w_scale"; null_node;
          sample_scale "y_scale"; null_node]).
Proof.
  apply (zero_points_unused_off_fast_path
           (sample_node (sample_filters element.i8 8) [] None)
           sample_data (sample_scale "x_scale")
           (sample_zero_point "x_zero_point")
           (sample_filters element.i8 8) (sample_scale "w_scale")
           (sample_zero_point "w_zero_point")
           (sample_scale "y_scale") (sample_zero_point "y_zero_point")
           null_node null_node null_node []);
    [reflexivity|right; left; discriminate].
Defined.

(** X5 on an operator with ten inputs, the ninth a real bias. *)
Lemma surplus_inputs_ignored_sample :
  quant_conv
    (sample_node (sample_filters element.u8 4) [sample_bias; sample_bias]
       (Some 2))
  = quant_conv
      (with_inputs
         (sample_node (sample_filters element.u8 4)
            [sample_bias; sample_bias] (Some 2))
         (sample_inputs (sample_filters element.u8 4) [])).
Proof.
  apply (surplus_inputs_ignored
           (sample_node (sample_filters element.u8 4)
              [sample_bias; sample_bias] (Some 2))
           sample_data (sample_scale "x_scale")
           (sample_zero_point "x_zero_point")
           (sample_filters element.u8 4) (sample_scale "w_scale")
           (sample_zero_point "w_zero_point")
           (sample_scale "y_scale") (sample_zero_point "y_zero_point")
           [sample_bias; sample_bias]); [reflexivity|cbn; lia].
Defined.

(** X6 on seven inputs with an [i8] filter: the plain call. *)
Lemma seven_inputs_fail_only_on_fast_path_sample :
  quant_conv
    (sample_node_over sample_data (sample_filters element.i8 8) [] None)
  = Ok [QuantizedLinearConvolution
          (Input sample_data) (Input (sample_filters element.i8 8))
          [1; 1] [1; 1] [0; 0] [0; 0] [1; 1]
          (Input (sample_scale "x_scale"))
          (Input (sample_scale "w_scale"))
          (Input (sample_scale "y_scale"))].
Proof.
  apply (seven_inputs_fail_only_on_fast_path
           (sample_node_over sample_data (sample_filters element.i8 8)
              [] None)
           sample_data (sample_scale "x_scale")
           (sample_zero_point "x_zero_point")
           (sample_filters element.i8 8) (sample_scale "w_scale")
           (sample_zero_point "w_zero_point") (sample_scale "y_scale")
           8 8); sample_premise.
Defined.

(** X7 on 4294967297 channels in as many groups, with a bias: the count
    narrows to 1 and the bias-fused call is emitted. *)
Lemma narrowed_group_count_decides_bias_outcome_sample :
  quant_conv
    (sample_node_over (sample_wide_data 4294967297)
       (sample_wide_filters 4294967297)
       [sample_zero_point "y_zero_point"; sample_bias] (Some 4294967297))
  = Ok [QuantizedLinearConvolutionBias
          (Input (sample_wide_data 4294967297))
          (Input (sample_wide_filters 4294967297))
          (Input sample_bias)
          [1; 1] [1; 1] [0; 0] [0; 0] [1; 1]
          (Input (sample_scale "x_scale"))
          (Input (sample_scale "w_scale"))
          (Input (sample_scale "y_scale"))].
Proof.
  apply (narrowed_group_count_decides_bias_outcome
           (sample_node_over (sample_wide_data 4294967297)
              (sample_wide_filters 4294967297)
              [sample_zero_point "y_zero_point"; sample_bias]
              (Some 4294967297))
           (sample_wide_data 4294967297) (sample_scale "x_scale")
           (sample_zero_point "x_zero_point")
           (sample_wide_filters 4294967297) (sample_scale "w_scale")
           (sample_zero_point "w_zero_point") (sample_scale "y_scale")
           (sample_zero_point "y_zero_point") sample_bias
           4294967297 4294967297); sample_premise.
Defined.

(** X8 on an operator with two groups. *)
Lemma calls_keep_geometry_and_scales_sample :
  exists data_scale filters_scale output_scale : TensorRef,
    sample_inputs (sample_filters element.u8 4) [] !! 1%nat
    = Some data_scale /\
    sample_inputs (sample_filters element.u8 4) [] !! 4%nat
    = Some filters_scale /\
    sample_inputs (sample_filters element.u8 4) [] !! 6%nat
    = Some output_scale /\
    Forall (fun n =>
              Forall (fun c =>
                        scales_of c
                        = Some (Input data_scale, Input filters_scale,
                                Input output_scale) /\
                        geometry_of c
                        = Some ([1; 1], [1; 1], [0; 0], [0; 0]))
                     (primitive_calls n))
           (returned
              (quant_conv
                 (sample_node (sample_filters element.u8 4) [] (Some 2)))).
Proof.
  apply (calls_keep_geometry_and_scales
           (sample_node (sample_filters element.u8 4) [] (Some 2))
           (returned
              (quant_conv
                 (sample_node (sample_filters element.u8 4) [] (Some 2)))));
    sample_premise.
Defined.

(** X9 on an operator with two groups. *)
Lemma group_slices_keep_other_axes_sample :
  exists calls : list NgNode,
    quant_conv (sample_node (sample_filters element.u8 4) [] (Some 2))
    = Ok [Concat calls 1] /\
    Forall (fun c =>
              exists dl du fl fu : list Z,
                operands_of c
                = Some (Slice (Input sample_data) dl du,
                        Slice (Input (sample_filters element.u8 4)) fl fu) /\
                (forall (axis : nat) (d : Z),
                   axis <> 1%nat -> [1; 8; 5; 5] !! axis = Some d ->
                   dl !! axis = Some 0 /\ du !! axis = Some d) /\
                (forall (axis : nat) (d : Z),
                   axis <> 0%nat -> [8; 4; 3; 3] !! axis = Some d ->
                   fl !! axis = Some 0 /\ fu !! axis = Some d))
           calls.
Proof.
  apply (group_slices_keep_other_axes
           (sample_node (sample_filters element.u8 4) [] (Some 2))
           sample_data (sample_scale "x_scale")
           (sample_zero_point "x_zero_point")
           (sample_filters element.u8 4) (sample_scale "w_scale")
           (sample_zero_point "w_zero_point")
           (sample_scale "y_scale") (sample_zero_point "y_zero_point")
           [] 8 8); sample_premise.
Defined.

(** X10 on an operator with two groups, which converts. *)
Lemma success_implies_group_invariants_sample :
  exists (data filters : TensorRef) (dc fc : Z),
    sample_inputs (sample_filters element.u8 4) [] !! 0%nat = Some data /\
    sample_inputs (sample_filters element.u8 4) [] !! 3%nat = Some filters /\
    get_shape data !! 1%nat = Some dc /\
    get_shape filters !! 0%nat = Some fc /\
    0 < 2 <= dc /\ 2 <= fc /\ dc mod 2 = 0 /\ fc mod 2 = 0.
Proof.
  apply (success_implies_group_invariants
           (sample_node (sample_filters element.u8 4) [] (Some 2))
           (returned
              (quant_conv
                 (sample_node (sample_filters element.u8 4) [] (Some 2)))));
    sample_premise.
Defined.

(** X13 on 8 channels in three groups: the slices are [[0,2)], [[2,4)] and
    [[4,6)], and channels 6 and 7 are left out. *)
Lemma helper_slices_round_down_sample :
  exists calls : list NgNode,
    make_ng_quant_conv sample_data (sample_filters element.u8 8)
      [1; 1] [1; 1] [0; 0] [0; 0] [1; 1] 3
      (mkOpScale (sample_scale "x_scale") (sample_scale "w_scale")
         (sample_scale "y_scale")) None
    = Ok (Concat calls 1) /\
    data_channel_range <$> calls = [Some (0, 2); Some (2, 4); Some (4, 6)] /\
    filter_channel_range <$> calls
    = [Some (0, 2); Some (2, 4); Some (4, 6)] /\
    total_size [(0, 2); (2, 4); (4, 6)] = 8 - 2 /\
    total_size [(0, 2); (2, 4); (4, 6)] = 8 - 2.
Proof.
  apply (helper_slices_round_down
           sample_data (sample_filters element.u8 8)
           [1; 1] [1; 1] [0; 0] [0; 0] [1; 1]
           (mkOpScale (sample_scale "x_scale") (sample_scale "w_scale")
              (sample_scale "y_scale")) 8 8 3); sample_premise.
Defined.


(** C2 on 4294967297 channels in as many groups, with a bias: the count
    narrows to 1 and the conversion is not rejected. *)
Lemma grouped_bias_accepted_after_narrowing_sample :
  quant_conv
    (sample_node_over (sample_wide_data 4294967297)
       (sample_wide_filters 4294967297)
       [sample_zero_point "y_zero_point"; sample_bias] (Some 4294967297))
  = Ok [QuantizedLinearConvolutionBias
          (Input (sample_wide_data 4294967297))
          (Input (sample_wide_filters 4294967297))
          (Input sample_bias)
          [1; 1] [1; 1] [0; 0] [0; 0] [1; 1]
          (Input (sample_scale "x_scale"))
          (Input (sample_scale "w_scale"))
          (Input (sample_scale "y_scale"))] /\
  forall msg : string,
    quant_conv
      (sample_node_over (sample_wide_data 4294967297)
         (sample_wide_filters 4294967297)
         [sample_zero_point "y_zero_point"; sample_bias] (Some 4294967297))
    <> Throw (NotSupported msg).
Proof.
  apply (grouped_bias_accepted_after_narrowing
           (sample_node_over (sample_wide_data 4294967297)
              (sample_wide_filters 4294967297)
              [sample_zero_point "y_zero_point"; sample_bias]
              (Some 4294967297))
           (sample_wide_data 4294967297) (sample_scale "x_scale")
           (sample_zero_point "x_zero_point")
           (sample_wide_filters 4294967297) (sample_scale "w_scale")
           (sample_zero_point "w_zero_point") (sample_scale "y_scale")
           (sample_zero_point "y_zero_point") sample_bias
           4294967297 4294967297); sample_premise.
Defined.

(** C4 on 4294967299 channels in as many groups, without a bias: the count
    narrows to 3, the three slices are 1431655766 wide, and the
    concatenation has 4294967298 channels, one fewer than the filter. *)
Lemma narrowed_group_count_breaks_partition_sample :
  (1 < 3 ->
   exists calls : list NgNode,
     quant_conv
       (sample_node_over (sample_wide_data 4294967299)
          (sample_wide_filters 4294967299)
          [sample_zero_point "y_zero_point"] (Some 4294967299))
     = Ok [Concat calls 1] /\
     length calls = 3%nat /\
     data_channel_range <$> calls
     = [Some (0, 1431655766); Some (1431655766, 2863311532);
        Some (2863311532, 4294967298)] /\
     filter_channel_range <$> calls
     = [Some (0, 1431655766); Some (1431655766, 2863311532);
        Some (2863311532, 4294967298)] /\
     output_channels (Concat calls 1) = Some 4294967298) /\
  (3 <= 1 ->
   quant_conv
     (sample_node_over (sample_wide_data 4294967299)
        (sample_wide_filters 4294967299)
        [sample_zero_point "y_zero_point"] (Some 4294967299))
   = Ok [QuantizedLinearConvolution
           (Input (sample_wide_data 4294967299))
           (Input (sample_wide_filters 4294967299))
           [1; 1] [1; 1] [0; 0] [0; 0] [1; 1]
           (Input (sample_scale "x_scale"))
           (Input (sample_scale "w_scale"))
           (Input (sample_scale "y_scale"))]).
Proof.
  apply (narrowed_group_count_breaks_partition
           (sample_node_over (sample_wide_data 4294967299)
              (sample_wide_filters 4294967299)
              [sample_zero_point "y_zero_point"] (Some 4294967299))
           (sample_wide_data 4294967299) (sample_scale "x_scale")
           (sample_zero_point "x_zero_point")
           (sample_wide_filters 4294967299) (sample_scale "w_scale")
           (sample_zero_point "w_zero_point") (sample_scale "y_scale")
           (sample_zero_point "y_zero_point") [] 4294967299 4294967299);
    sample_premise.
Defined.
